(** * MKL graph-rewrite helpers and the cuBLASLt forwarding stub

    A shallow embedding of
      - tensorflow/core/graph/mkl_graph_util.h
      - tensorflow/stream_executor/cuda/cublasLt_stub.cc

    Pure index arithmetic is embedded as functions on [Z] with the 32-bit
    wrap-around of [int] written out.  Everything that touches function-local
    statics, once-flags, the log or the outside world (kernel registry,
    environment, DSO loader, CPU features) is embedded in a small
    state-and-abort monad over an explicit [World]. *)

From Stdlib Require Import ZArith List String Ascii Bool Lia Permutation.
Import ListNotations.

Open Scope string_scope.
Open Scope Z_scope.

(* ================================================================== *)
(** ** C++ [int] *)

Module CInt.

Definition INT_MIN : Z := - 2 ^ 31.
Definition INT_MAX : Z := 2 ^ 31 - 1.

(** [in_int z]: [z] is representable in a 32-bit signed [int]. *)
Definition in_int (z : Z) : Prop := INT_MIN <= z <= INT_MAX.

(** Two's-complement wrap-around to 32 bits. *)
Definition wrap (z : Z) : Z := (z + 2 ^ 31) mod 2 ^ 32 - 2 ^ 31.

Definition add (a b : Z) : Z := wrap (a + b).
Definition mul (a b : Z) : Z := wrap (a * b).
(** C++ [/] on [int] truncates toward zero. *)
Definition div (a b : Z) : Z := wrap (Z.quot a b).

End CInt.

(* ================================================================== *)
(** ** Ordering of data and meta-data tensors *)

Inductive MklTfTensorOrdering := TENSORS_INTERLEAVED | TENSORS_CONTIGUOUS.

Definition MklTfTensorOrdering_eqb (a b : MklTfTensorOrdering) : bool :=
  match a, b with
  | TENSORS_INTERLEAVED, TENSORS_INTERLEAVED => true
  | TENSORS_CONTIGUOUS, TENSORS_CONTIGUOUS => true
  | _, _ => false
  end.

Definition kTensorOrdering : MklTfTensorOrdering := TENSORS_CONTIGUOUS.

(** [CHECK_EQ a b] is fatal when it fails: the continuation runs only when
    the two values are equal, otherwise there is no result. *)
Definition CHECK_EQ {A} (a b : MklTfTensorOrdering) (k : option A) : option A :=
  if MklTfTensorOrdering_eqb a b then k else None.

Definition DataIndexToMetaDataIndex (n total_tensors : Z) : option Z :=
  if MklTfTensorOrdering_eqb kTensorOrdering TENSORS_INTERLEAVED then
    Some (CInt.add n 1)
  else
    CHECK_EQ kTensorOrdering TENSORS_CONTIGUOUS
      (Some (CInt.add n (CInt.div total_tensors 2))).

Definition GetTensorDataIndex (n total_tensors : Z) : option Z :=
  if MklTfTensorOrdering_eqb kTensorOrdering TENSORS_INTERLEAVED then
    Some (CInt.mul 2 n)
  else
    CHECK_EQ kTensorOrdering TENSORS_CONTIGUOUS (Some n).

Definition GetTensorMetaDataIndex (n total_tensors : Z) : option Z :=
  match GetTensorDataIndex n total_tensors with
  | Some tidx => DataIndexToMetaDataIndex tidx total_tensors
  | None => None
  end.

(* ================================================================== *)
(** ** Strings as [std::string] *)

(** [find s pat] is [s.find(pat)]: the least position at which [pat] occurs
    in [s]; [None] stands for [string::npos]. *)
Fixpoint find_from (pat s : string) (pos : nat) : option nat :=
  if String.prefix pat s then Some pos
  else match s with
       | EmptyString => None
       | String _ s' => find_from pat s' (S pos)
       end.

Definition find (s pat : string) : option nat := find_from pat s 0.

(** [kernel.find(pat) != string::npos] *)
Definition find_ne_npos (s pat : string) : bool :=
  match find s pat with Some _ => true | None => false end.

(** [0 == a.compare(b)] *)
Definition compare_eq0 (a b : string) : bool :=
  match String.compare a b with Eq => true | _ => false end.

(* ================================================================== *)
(** ** [DataType] (framework/types.proto) *)

Inductive DataType :=
| DT_INVALID | DT_FLOAT | DT_DOUBLE | DT_INT32 | DT_UINT8 | DT_INT16 | DT_INT8
| DT_STRING | DT_COMPLEX64 | DT_INT64 | DT_BOOL | DT_QINT8 | DT_QUINT8
| DT_QINT32 | DT_BFLOAT16 | DT_QINT16 | DT_QUINT16 | DT_UINT16
| DT_COMPLEX128 | DT_HALF | DT_RESOURCE | DT_VARIANT | DT_UINT32 | DT_UINT64
| DT_FLOAT_REF | DT_DOUBLE_REF | DT_INT32_REF | DT_UINT8_REF | DT_INT16_REF
| DT_INT8_REF | DT_STRING_REF | DT_COMPLEX64_REF | DT_INT64_REF | DT_BOOL_REF
| DT_QINT8_REF | DT_QUINT8_REF | DT_QINT32_REF | DT_BFLOAT16_REF
| DT_QINT16_REF | DT_QUINT16_REF | DT_UINT16_REF | DT_COMPLEX128_REF
| DT_HALF_REF | DT_RESOURCE_REF | DT_VARIANT_REF | DT_UINT32_REF
| DT_UINT64_REF.

(** The enumerator's number; [==] on [DataType] compares these. *)
Definition DataType_Number (T : DataType) : Z :=
  match T with
  | DT_INVALID => 0 | DT_FLOAT => 1 | DT_DOUBLE => 2 | DT_INT32 => 3
  | DT_UINT8 => 4 | DT_INT16 => 5 | DT_INT8 => 6 | DT_STRING => 7
  | DT_COMPLEX64 => 8 | DT_INT64 => 9 | DT_BOOL => 10 | DT_QINT8 => 11
  | DT_QUINT8 => 12 | DT_QINT32 => 13 | DT_BFLOAT16 => 14 | DT_QINT16 => 15
  | DT_QUINT16 => 16 | DT_UINT16 => 17 | DT_COMPLEX128 => 18 | DT_HALF => 19
  | DT_RESOURCE => 20 | DT_VARIANT => 21 | DT_UINT32 => 22 | DT_UINT64 => 23
  | DT_FLOAT_REF => 101 | DT_DOUBLE_REF => 102 | DT_INT32_REF => 103
  | DT_UINT8_REF => 104 | DT_INT16_REF => 105 | DT_INT8_REF => 106
  | DT_STRING_REF => 107 | DT_COMPLEX64_REF => 108 | DT_INT64_REF => 109
  | DT_BOOL_REF => 110 | DT_QINT8_REF => 111 | DT_QUINT8_REF => 112
  | DT_QINT32_REF => 113 | DT_BFLOAT16_REF => 114 | DT_QINT16_REF => 115
  | DT_QUINT16_REF => 116 | DT_UINT16_REF => 117 | DT_COMPLEX128_REF => 118
  | DT_HALF_REF => 119 | DT_RESOURCE_REF => 120 | DT_VARIANT_REF => 121
  | DT_UINT32_REF => 122 | DT_UINT64_REF => 123
  end.

Definition DataType_eqb (a b : DataType) : bool :=
  Z.eqb (DataType_Number a) (DataType_Number b).

Definition DataType_Name (T : DataType) : string :=
  match T with
  | DT_INVALID => "DT_INVALID" | DT_FLOAT => "DT_FLOAT"
  | DT_DOUBLE => "DT_DOUBLE" | DT_INT32 => "DT_INT32"
  | DT_UINT8 => "DT_UINT8" | DT_INT16 => "DT_INT16" | DT_INT8 => "DT_INT8"
  | DT_STRING => "DT_STRING" | DT_COMPLEX64 => "DT_COMPLEX64"
  | DT_INT64 => "DT_INT64" | DT_BOOL => "DT_BOOL" | DT_QINT8 => "DT_QINT8"
  | DT_QUINT8 => "DT_QUINT8" | DT_QINT32 => "DT_QINT32"
  | DT_BFLOAT16 => "DT_BFLOAT16" | DT_QINT16 => "DT_QINT16"
  | DT_QUINT16 => "DT_QUINT16" | DT_UINT16 => "DT_UINT16"
  | DT_COMPLEX128 => "DT_COMPLEX128" | DT_HALF => "DT_HALF"
  | DT_RESOURCE => "DT_RESOURCE" | DT_VARIANT => "DT_VARIANT"
  | DT_UINT32 => "DT_UINT32" | DT_UINT64 => "DT_UINT64"
  | DT_FLOAT_REF => "DT_FLOAT_REF" | DT_DOUBLE_REF => "DT_DOUBLE_REF"
  | DT_INT32_REF => "DT_INT32_REF" | DT_UINT8_REF => "DT_UINT8_REF"
  | DT_INT16_REF => "DT_INT16_REF" | DT_INT8_REF => "DT_INT8_REF"
  | DT_STRING_REF => "DT_STRING_REF" | DT_COMPLEX64_REF => "DT_COMPLEX64_REF"
  | DT_INT64_REF => "DT_INT64_REF" | DT_BOOL_REF => "DT_BOOL_REF"
  | DT_QINT8_REF => "DT_QINT8_REF" | DT_QUINT8_REF => "DT_QUINT8_REF"
  | DT_QINT32_REF => "DT_QINT32_REF" | DT_BFLOAT16_REF => "DT_BFLOAT16_REF"
  | DT_QINT16_REF => "DT_QINT16_REF" | DT_QUINT16_REF => "DT_QUINT16_REF"
  | DT_UINT16_REF => "DT_UINT16_REF"
  | DT_COMPLEX128_REF => "DT_COMPLEX128_REF" | DT_HALF_REF => "DT_HALF_REF"
  | DT_RESOURCE_REF => "DT_RESOURCE_REF" | DT_VARIANT_REF => "DT_VARIANT_REF"
  | DT_UINT32_REF => "DT_UINT32_REF" | DT_UINT64_REF => "DT_UINT64_REF"
  end.

(* ================================================================== *)
(** ** The world the two files run in *)

(** [void*] as an address; the null pointer is address 0. *)
Definition ptr := N.
Definition nullptr : ptr := 0%N.

Inductive Status := OK | Error (msg : string).

(** [port::StatusOr<T>] *)
Inductive StatusOr (A : Type) :=
| ValueOf (a : A)
| StatusOf (msg : string).
Arguments ValueOf {A} a.
Arguments StatusOf {A} msg.

(** Attributes of a [NodeDef]; only their shape matters here. *)
Inductive AttrValue :=
| AttrType (T : DataType)
| AttrString (s : string)
| AttrInt (i : Z)
| AttrBool (b : bool).

Record NodeDef := mkNodeDef {
  node_name : string;
  node_op : string;
  node_attr : list (string * AttrValue)
}.

Record Node := mkNode {
  def : NodeDef;
  type_string : string
}.

(** What the host framework and the platform supply.  None of these is
    defined in the two files; they are called through this interface, and
    what they answer may differ from one call to the next.
      - [KernelsRegisteredForOp op]: the registry's description string;
      - [TestCPUFeature_AVX512F]: [port::TestCPUFeature(AVX512F)];
      - [ReadBoolFromEnvVar name default]: the status and the value stored
        through the out-parameter;
      - [GetCublasLtDsoHandle]: [DsoLoader::GetCublasLtDsoHandle()];
      - [GetSymbolFromLibrary handle name old]: the status and the content
        of [*symbol] afterwards, [old] being its content before;
      - [GetNodeAttr ndef name]: the [DataType] overload; the out-parameter
        is only read when the status is ok. *)
Record Extern := mkExtern {
  KernelsRegisteredForOp : string -> string;
  TestCPUFeature_AVX512F : bool;
  ReadBoolFromEnvVar : string -> bool -> Status * bool;
  GetCublasLtDsoHandle : StatusOr ptr;
  GetSymbolFromLibrary : ptr -> string -> ptr -> Status * ptr;
  GetNodeAttr : NodeDef -> string -> StatusOr DataType
}.

(** Preprocessor configuration ([INTEL_MKL] is taken as defined, the header
    is empty otherwise). *)
Record Build := mkBuild {
  PLATFORM_GOOGLE : bool;
  ENABLE_MKL : bool
}.

(** Function-local statics.
      - [handle]: [static auto handle] of [GetDsoHandle], [None] until its
        initialiser has run;
      - [native_fmt_enabled], [once]: the statics of [NativeFormatEnabled];
      - [cpu_bfloat16_warn_once_flag]: the static of
        [BF16UnsupportedWarning].  That function is [static inline], so
        every translation unit that includes the header has a copy of it
        with a flag of its own: the field is the flag of the copy being
        run, and a [World] is the process as that copy sees it.  The
        flags of all copies are in [Process] below.  The other statics
        exist once per process ([NativeFormatEnabled] is [inline] with
        external linkage, the stub is one translation unit).
    A once-flag is [true] when its callable has run. *)
Record Statics := mkStatics {
  handle : option ptr;
  native_fmt_enabled : bool;
  once : bool;
  cpu_bfloat16_warn_once_flag : bool
}.

(** Observable effects, most recent first in a trace. *)
Inductive Event :=
| CallGetCublasLtDsoHandle
| CallGetSymbolFromLibrary (h : ptr) (symbol_name : string)
| CallReadBoolFromEnvVar (env_var_name : string)
| CallTestCPUFeature
| LogError (msg : string)
| LogFatal (msg : string).

Record World := mkWorld {
  build : Build;
  extern : Extern;
  statics : Statics;
  trace : list Event
}.

(** A process starts with zero-initialised flags, [native_fmt_enabled = true],
    no handle and an empty trace. *)
Definition statics0 : Statics :=
  {| handle := None; native_fmt_enabled := true; once := false;
     cpu_bfloat16_warn_once_flag := false |}.

Definition fresh (b : Build) (e : Extern) : World :=
  {| build := b; extern := e; statics := statics0; trace := [] |}.

(* ------------------------------------------------------------------ *)
(** *** State-and-abort monad *)

(** A call either returns a value in a new world, or the process aborts
    ([LOG(FATAL)], a failed [TF_CHECK_OK]) in the world reached so far. *)
Inductive Res (A : Type) :=
| Ret (a : A) (w : World)
| Abort (w : World).
Arguments Ret {A} a w.
Arguments Abort {A} w.

Definition M (A : Type) : Type := World -> Res A.

Definition ret {A} (a : A) : M A := fun w => Ret a w.

Definition bind {A B} (m : M A) (k : A -> M B) : M B :=
  fun w => match m w with
           | Ret a w' => k a w'
           | Abort w' => Abort w'
           end.

Declare Scope m_scope.
Delimit Scope m_scope with M.
Notation "x <- m ;; k" := (bind m (fun x => k))
  (at level 61, m at next level, right associativity) : m_scope.
Notation "m ;;; k" := (bind m (fun _ => k))
  (at level 61, right associativity) : m_scope.
Open Scope m_scope.

Definition world_of {A} (r : Res A) : World :=
  match r with Ret _ w => w | Abort w => w end.

Definition value_of {A} (r : Res A) : option A :=
  match r with Ret a _ => Some a | Abort _ => None end.

Definition emit (ev : Event) : M unit :=
  fun w => Ret tt {| build := build w; extern := extern w;
                     statics := statics w; trace := ev :: trace w |}.

(** Call into the framework or platform, leaving [ev] in the trace. *)
Definition call {A} (ev : Event) (f : Extern -> A) : M A :=
  emit ev ;;; fun w => Ret (f (extern w)) w.

(** A framework call with nothing to observe (a registry or attribute
    look-up). *)
Definition ask {A} (f : Extern -> A) : M A :=
  fun w => Ret (f (extern w)) w.

Definition defined (f : Build -> bool) : M bool :=
  fun w => Ret (f (build w)) w.

Definition load {A} (f : Statics -> A) : M A :=
  fun w => Ret (f (statics w)) w.

Definition store (f : Statics -> Statics) : M unit :=
  fun w => Ret tt {| build := build w; extern := extern w;
                     statics := f (statics w); trace := trace w |}.

Definition LOG_ERROR (msg : string) : M unit := emit (LogError msg).

Definition LOG_FATAL {A} (msg : string) : M A :=
  fun w => match emit (LogFatal msg) w with
           | Ret _ w' => Abort w'
           | Abort w' => Abort w'
           end.

Definition TF_CHECK_OK (s : Status) : M unit :=
  match s with
  | OK => ret tt
  | Error msg => LOG_FATAL msg
  end.

(** [absl::call_once(flag, f)]: runs [f] when the flag is clear and sets the
    flag when [f] has returned. *)
Definition call_once (flag : Statics -> bool) (set : Statics -> Statics)
    (f : M unit) : M unit :=
  done <- load flag ;;
  if done then ret tt else f ;;; store set.

Definition set_handle (p : ptr) (s : Statics) : Statics :=
  {| handle := Some p; native_fmt_enabled := native_fmt_enabled s;
     once := once s;
     cpu_bfloat16_warn_once_flag := cpu_bfloat16_warn_once_flag s |}.

Definition set_native_fmt_enabled (b : bool) (s : Statics) : Statics :=
  {| handle := handle s; native_fmt_enabled := b; once := once s;
     cpu_bfloat16_warn_once_flag := cpu_bfloat16_warn_once_flag s |}.

Definition set_once (s : Statics) : Statics :=
  {| handle := handle s; native_fmt_enabled := native_fmt_enabled s;
     once := true;
     cpu_bfloat16_warn_once_flag := cpu_bfloat16_warn_once_flag s |}.

Definition set_cpu_bfloat16_warn_once_flag (s : Statics) : Statics :=
  {| handle := handle s; native_fmt_enabled := native_fmt_enabled s;
     once := once s; cpu_bfloat16_warn_once_flag := true |}.

(** Short-circuit [||] on calls. *)
Definition orM (a b : M bool) : M bool :=
  x <- a ;; if x then ret true else b.

(* ================================================================== *)
(** ** cublasLt_stub.cc *)

Definition GetDsoHandle : M ptr :=
  google <- defined PLATFORM_GOOGLE ;;
  if google then ret nullptr
  else
    cell <- load handle ;;
    match cell with
    | Some p => ret p
    | None =>
        handle_or <- call CallGetCublasLtDsoHandle GetCublasLtDsoHandle ;;
        let p := match handle_or with
                 | StatusOf _ => nullptr
                 | ValueOf v => v
                 end in
        store (set_handle p) ;;; ret p
    end.

(** [reinterpret_cast<T>] keeps the address, so the result is a [ptr]
    whatever [T] is. *)
Definition LoadSymbol (symbol_name : string) : M ptr :=
  let symbol := nullptr in
  h <- GetDsoHandle ;;
  if negb (N.eqb h nullptr) then
    r <- call (CallGetSymbolFromLibrary h symbol_name)
              (fun e => GetSymbolFromLibrary e h symbol_name symbol) ;;
    (* .IgnoreError() *)
    ret (snd r)
  else ret symbol.

Definition LogFatalSymbolNotFound (symbol_name : string) : M unit :=
  LOG_FATAL (symbol_name ++ " symbol not found.").

Inductive cublasStatus_t := CUBLAS_STATUS_INTERNAL_ERROR.

Definition GetSymbolNotFoundError : cublasStatus_t :=
  CUBLAS_STATUS_INTERNAL_ERROR.

(* ================================================================== *)
(** ** mkl_graph_util.h *)

Definition NativeFormatEnabled : M bool :=
  mkl <- defined ENABLE_MKL ;;
  if negb mkl then ret true
  else
    call_once once set_once
      (r <- call (CallReadBoolFromEnvVar "TF_ENABLE_MKL_NATIVE_FORMAT")
                 (fun e => ReadBoolFromEnvVar e "TF_ENABLE_MKL_NATIVE_FORMAT"
                             true) ;;
       store (set_native_fmt_enabled (snd r)) ;;;
       TF_CHECK_OK (fst r)) ;;;
    load native_fmt_enabled.

(** [const Edge*]: where the edge leads (the address of its [dst()] node)
    and what [IsControlEdge()] answers. *)
Record Edge := mkEdge {
  edge_dst : ptr;
  IsControlEdge : bool
}.

(** The loop of [DoesControlEdgeExist] over the edges in the order
    [src->out_edges()] yields them; it returns at the first match. *)
Fixpoint DoesControlEdgeExist_loop (edges : list Edge) (dst : ptr) : bool :=
  match edges with
  | [] => false
  | edge :: rest =>
      if IsControlEdge edge && N.eqb (edge_dst edge) dst then true
      else DoesControlEdgeExist_loop rest dst
  end.

(** Nodes are compared by address; [out_edges] is the graph's edge set of
    a node. *)
Definition DoesControlEdgeExist (out_edges : ptr -> list Edge)
    (src dst : ptr) : bool :=
  DoesControlEdgeExist_loop (out_edges src) dst.

(** [Check5DFormat(ndef)].  [GetNodeAttr_string ndef name old] is the
    [string] overload of [GetNodeAttr]: the status and the content of the
    out-parameter afterwards, [old] being its content before. *)
Definition Check5DFormat
    (GetNodeAttr_string : NodeDef -> string -> string -> Status * string)
    (ndef : NodeDef) : M bool :=
  let data_format := "" in
  let r := GetNodeAttr_string ndef "data_format" data_format in
  let data_format := snd r in
  TF_CHECK_OK (fst r) ;;;
  if compare_eq0 data_format "NCDHW" || compare_eq0 data_format "NDHWC"
  then ret true
  else ret false.

Module mkl_op_registry.

Definition kMklLayoutDependentOpLabel : string := "MklLayoutDependentOp".
Definition kMklLayoutDependentOpLabelPattern : string :=
  "label='MklLayoutDependentOp'".
Definition kMklNameChangeOpLabel : string := "MklNameChangeOp".
Definition kMklNameChangeOpLabelPattern : string := "label='MklNameChangeOp'".
Definition kMklQuantizedOpLabel : string := "QuantizedMklOp".
Definition kMklQuantizedOpLabelPattern : string := "label='QuantizedMklOp'".

Definition kMklOpPrefix : string := "_Mkl".
Definition kMklEagerOpPrefix : string := "_MklEager".
Definition kMklNativeOpPrefix : string := "_MklNative".

Definition GetMklNativeOpName (name : string) : string :=
  let result :=
    compare_eq0 name "ConjugateTranspose" ||
    compare_eq0 name "BatchMatMul" || compare_eq0 name "BatchMatMulV2" ||
    compare_eq0 name "MatMul" || compare_eq0 name "Transpose" in
  if result then kMklOpPrefix ++ name
  else kMklNativeOpPrefix ++ name.

Definition GetMklOpName (name : string) : M string :=
  native <- NativeFormatEnabled ;;
  if negb native then ret (kMklOpPrefix ++ name)
  else ret (GetMklNativeOpName name).

Definition GetMklEagerOpName (name : string) : string :=
  kMklEagerOpPrefix ++ name.

Definition IsBF16SupportedByOneDNNOnThisCPU : M bool :=
  call CallTestCPUFeature TestCPUFeature_AVX512F.

Definition BF16UnsupportedWarning : M unit :=
  call_once cpu_bfloat16_warn_once_flag set_cpu_bfloat16_warn_once_flag
    (LOG_ERROR
       ("oneDNN BFloat16 support are only on platforms with AVX512. " ++
        "Falling back to default implementation if present.")).

Definition IsMklLayoutDependentOp (op_name : string) (T : DataType) : M bool :=
  kernel <- ask (fun e => KernelsRegisteredForOp e op_name) ;;
  if find_ne_npos kernel kMklQuantizedOpLabelPattern then
    ret (DataType_eqb T DT_QUINT8 || DataType_eqb T DT_QINT8 ||
         DataType_eqb T DT_QINT32)
  else if find_ne_npos kernel kMklLayoutDependentOpLabelPattern then
    if DataType_eqb T DT_FLOAT then ret true
    else if DataType_eqb T DT_BFLOAT16 then
      supported <- IsBF16SupportedByOneDNNOnThisCPU ;;
      if supported then ret true
      else BF16UnsupportedWarning ;;; ret false
    else ret false
  else ret false.

(** The overload [IsMklLayoutDependentOp(op_name, Tinput, Tfilter)]. *)
Definition IsMklLayoutDependentOp2 (op_name : string)
    (Tinput Tfilter : DataType) : M bool :=
  kernel <- ask (fun e => KernelsRegisteredForOp e op_name) ;;
  if find_ne_npos kernel kMklQuantizedOpLabelPattern then
    ret (DataType_eqb Tfilter DT_QINT8)
  else ret false.

Definition IsMklNameChangeOp (op_name : string) (T : DataType) : M bool :=
  kernel <- ask (fun e => KernelsRegisteredForOp e op_name) ;;
  let search_string := kMklNameChangeOpLabelPattern in
  let search_string := search_string ++ (";" ++ " T in [") in
  let search_string := search_string ++ (DataType_Name T ++ "]") in
  if find_ne_npos kernel search_string then
    let isTypeAllowed :=
      DataType_eqb T DT_COMPLEX128 || DataType_eqb T DT_COMPLEX64 ||
      DataType_eqb T DT_DOUBLE || DataType_eqb T DT_FLOAT in
    if negb isTypeAllowed then
      if DataType_eqb T DT_BFLOAT16 then
        supported <- IsBF16SupportedByOneDNNOnThisCPU ;;
        if supported then ret true
        else BF16UnsupportedWarning ;;; ret false
      else ret isTypeAllowed
    else ret isTypeAllowed
  else ret false.

Definition IsMklOp (op_name : string) (T : DataType) : M bool :=
  orM (IsMklLayoutDependentOp op_name T) (IsMklNameChangeOp op_name T).

(** The overload [IsMklOp(const Node* n)]. *)
Definition IsMklOp_node (n : Node) : M bool :=
  attr <- ask (fun e => GetNodeAttr e (def n) "T") ;;
  match attr with
  | StatusOf _ => ret false
  | ValueOf T => IsMklOp (type_string n) T
  end.

Definition IsMklElementWiseOp (op_name : string) (T : DataType) : M bool :=
  mkl <- IsMklOp op_name T ;;
  if negb mkl then ret false
  else
    let named x := (s <- GetMklOpName x ;; ret (compare_eq0 op_name s)) in
    orM (named "Add")
      (orM (named "AddV2")
         (orM (named "Sub")
            (orM (named "Mul")
               (orM (named "Maximum") (named "SquaredDifference"))))).

End mkl_op_registry.

(* ================================================================== *)
(** ** A process: calls into the two files over time *)

(** Every function of the two files as a call a process can make, and
    [Outside e]: between two calls the framework or the platform changes
    (an environment variable is set, kernels get registered, a library
    appears on disk).  [CDoesControlEdgeExist] and [CCheck5DFormat] carry
    what the graph and the attribute look-up answer at the time of the
    call. *)
Inductive Call :=
| CGetDsoHandle
| CLoadSymbol (symbol_name : string)
| CNativeFormatEnabled
| CGetMklOpName (name : string)
| CBF16UnsupportedWarning
| CIsMklLayoutDependentOp (op_name : string) (T : DataType)
| CIsMklLayoutDependentOp2 (op_name : string) (Tinput Tfilter : DataType)
| CIsMklNameChangeOp (op_name : string) (T : DataType)
| CIsMklOp (op_name : string) (T : DataType)
| CIsMklOp_node (n : Node)
| CIsMklElementWiseOp (op_name : string) (T : DataType)
| Outside (e : Extern)
| CDataIndexToMetaDataIndex (n total_tensors : Z)
| CGetTensorDataIndex (n total_tensors : Z)
| CGetTensorMetaDataIndex (n total_tensors : Z)
| CDoesControlEdgeExist (out_edges : ptr -> list Edge) (src dst : ptr)
| CCheck5DFormat
    (GetNodeAttr_string : NodeDef -> string -> string -> Status * string)
    (ndef : NodeDef)
| CGetMklNativeOpName (name : string)
| CGetMklEagerOpName (name : string)
| CIsBF16SupportedByOneDNNOnThisCPU
| CLogFatalSymbolNotFound (symbol_name : string)
| CGetSymbolNotFoundError.

Inductive Value :=
| VPtr (p : ptr)
| VBool (b : bool)
| VString (s : string)
| VUnit
| VInt (z : Z)
| VStatus (s : cublasStatus_t).

Definition fmap {A B} (f : A -> B) (m : M A) : M B :=
  a <- m ;; ret (f a).

Definition set_extern (e : Extern) : M unit :=
  fun w => Ret tt {| build := build w; extern := e;
                     statics := statics w; trace := trace w |}.

Import mkl_op_registry.

(** The index functions as calls: a failed [CHECK_EQ] is fatal. *)
Definition checked (r : option Z) : M Value :=
  match r with
  | Some z => ret (VInt z)
  | None => LOG_FATAL "Check failed"
  end.

Definition exec (c : Call) : M Value :=
  match c with
  | CGetDsoHandle => fmap VPtr GetDsoHandle
  | CLoadSymbol s => fmap VPtr (LoadSymbol s)
  | CNativeFormatEnabled => fmap VBool NativeFormatEnabled
  | CGetMklOpName name => fmap VString (GetMklOpName name)
  | CBF16UnsupportedWarning => fmap (fun _ => VUnit) BF16UnsupportedWarning
  | CIsMklLayoutDependentOp op T => fmap VBool (IsMklLayoutDependentOp op T)
  | CIsMklLayoutDependentOp2 op Ti Tf =>
      fmap VBool (IsMklLayoutDependentOp2 op Ti Tf)
  | CIsMklNameChangeOp op T => fmap VBool (IsMklNameChangeOp op T)
  | CIsMklOp op T => fmap VBool (IsMklOp op T)
  | CIsMklOp_node n => fmap VBool (IsMklOp_node n)
  | CIsMklElementWiseOp op T => fmap VBool (IsMklElementWiseOp op T)
  | Outside e => fmap (fun _ => VUnit) (set_extern e)
  | CDataIndexToMetaDataIndex n t => checked (DataIndexToMetaDataIndex n t)
  | CGetTensorDataIndex n t => checked (GetTensorDataIndex n t)
  | CGetTensorMetaDataIndex n t => checked (GetTensorMetaDataIndex n t)
  | CDoesControlEdgeExist out_edges src dst =>
      ret (VBool (DoesControlEdgeExist out_edges src dst))
  | CCheck5DFormat g ndef => fmap VBool (Check5DFormat g ndef)
  | CGetMklNativeOpName name => ret (VString (GetMklNativeOpName name))
  | CGetMklEagerOpName name => ret (VString (GetMklEagerOpName name))
  | CIsBF16SupportedByOneDNNOnThisCPU =>
      fmap VBool IsBF16SupportedByOneDNNOnThisCPU
  | CLogFatalSymbolNotFound s =>
      fmap (fun _ => VUnit) (LogFatalSymbolNotFound s)
  | CGetSymbolNotFoundError => ret (VStatus GetSymbolNotFoundError)
  end.

(** Runs the calls in order, all of them made from one translation unit;
    an abort ends the process.  The result is the history of completed
    calls with what they returned, and the last world. *)
Fixpoint run (cs : list Call) (w : World) : list (Call * Value) * World :=
  match cs with
  | [] => ([], w)
  | c :: cs' =>
      match exec c w with
      | Ret v w' => let (h, wf) := run cs' w' in ((c, v) :: h, wf)
      | Abort w' => ([], w')
      end
  end.

(** Counting events of one kind in a trace. *)
Definition count (p : Event -> bool) (tr : list Event) : nat :=
  List.length (List.filter p tr).

Definition is_dso_load (ev : Event) : bool :=
  match ev with CallGetCublasLtDsoHandle => true | _ => false end.

Definition is_env_read (ev : Event) : bool :=
  match ev with CallReadBoolFromEnvVar _ => true | _ => false end.

Definition is_warning (ev : Event) : bool :=
  match ev with LogError _ => true | _ => false end.

Definition is_lookup_of (s : string) (ev : Event) : bool :=
  match ev with
  | CallGetSymbolFromLibrary _ s' => String.eqb s s'
  | _ => false
  end.

(* ================================================================== *)
(** ** A process with several translation units *)

(** A translation unit that includes the header. *)
Definition TU := nat.

(** [shared]: the world, where the warning flag is the one of the copy
    that ran last; [flags u]: the warning flag of unit [u]'s copy of
    [BF16UnsupportedWarning]; [log]: the trace, each event with the unit
    whose call caused it, most recent first. *)
Record Process := mkProcess {
  shared : World;
  flags : TU -> bool;
  log : list (TU * Event)
}.

Definition with_flag (f : bool) (w : World) : World :=
  {| build := build w; extern := extern w;
     statics := {| handle := handle (statics w);
                   native_fmt_enabled := native_fmt_enabled (statics w);
                   once := once (statics w);
                   cpu_bfloat16_warn_once_flag := f |};
     trace := trace w |}.

(** The process as unit [u]'s copy of the header sees it. *)
Definition view (u : TU) (p : Process) : World :=
  with_flag (flags p u) (shared p).

(** The events a call added to the trace. *)
Definition new_events (before after : list Event) : list Event :=
  List.firstn (List.length after - List.length before) after.

(** After a call from unit [u] that started in [w] and ended in [w']:
    the flag of [u]'s copy is the one [w'] has, the other copies keep
    theirs, and the new events are logged under [u]. *)
Definition settle (u : TU) (w w' : World) (p : Process) : Process :=
  {| shared := w';
     flags := fun v => if Nat.eqb v u
                       then cpu_bfloat16_warn_once_flag (statics w')
                       else flags p v;
     log := List.map (pair u) (new_events (trace w) (trace w')) ++ log p |}.

(** A call made from unit [u]; [None] when it aborts the process. *)
Definition exec_from (u : TU) (c : Call) (p : Process)
    : option Value * Process :=
  match exec c (view u p) with
  | Ret v w' => (Some v, settle u (view u p) w' p)
  | Abort w' => (None, settle u (view u p) w' p)
  end.

Fixpoint run_units (cs : list (TU * Call)) (p : Process)
    : list (TU * Call * Value) * Process :=
  match cs with
  | [] => ([], p)
  | (u, c) :: cs' =>
      match exec_from u c p with
      | (Some v, p') => let (h, pf) := run_units cs' p' in
                        ((u, c, v) :: h, pf)
      | (None, p') => ([], p')
      end
  end.

(** Process start: no copy has warned. *)
Definition boot (b : Build) (e : Extern) : Process :=
  {| shared := fresh b e; flags := fun _ => false; log := [] |}.

Definition is_warning_of (u : TU) (x : TU * Event) : bool :=
  Nat.eqb (fst x) u && is_warning (snd x).

Definition is_cpu_test (ev : Event) : bool :=
  match ev with CallTestCPUFeature => true | _ => false end.

Definition count_in {A} (p : A -> bool) (l : list A) : nat :=
  List.length (List.filter p l).

(* ================================================================== *)
(** ** Sample framework and platform, for concrete runs *)

Module Sample.

Definition matmul_kernels : string :=
  "Op = _MklMatMul, kernels = " ++
  "device='CPU'; label='MklNameChangeOp'; T in [DT_DOUBLE] " ++
  "device='CPU'; label='MklNameChangeOp'; T in [DT_FLOAT] ".

Definition registry (op_name : string) : string :=
  if String.eqb op_name "_MklMatMul" then matmul_kernels
  else if String.eqb op_name "_MklAdd" then
    "device='CPU'; label='MklLayoutDependentOp'; T in [DT_FLOAT]"
  else if String.eqb op_name "_MklConv2D" then
    "device='CPU'; label='MklLayoutDependentOp'; T in [DT_FLOAT]"
  else if String.eqb op_name "_MklQuantizedConv2D" then
    "device='CPU'; label='QuantizedMklOp'; Tinput in [DT_QUINT8]"
  else "".

Fixpoint lookup_attr (name : string) (l : list (string * AttrValue))
    : option AttrValue :=
  match l with
  | [] => None
  | (k, v) :: l' => if String.eqb k name then Some v else lookup_attr name l'
  end.

Definition node_attr_type (nd : NodeDef) (name : string) : StatusOr DataType :=
  match lookup_attr name (node_attr nd) with
  | Some (AttrType T) => ValueOf T
  | Some _ => StatusOf "attribute is not a type"
  | None => StatusOf "no such attribute"
  end.

Definition symbols (h : ptr) (name : string) (old : ptr) : Status * ptr :=
  if String.eqb name "cublasLtCreate" then (OK, 8192%N)
  else (Error "undefined symbol", nullptr).

(** cuBLASLt is installed, [TF_ENABLE_MKL_NATIVE_FORMAT=0], no AVX512. *)
Definition ext : Extern :=
  {| KernelsRegisteredForOp := registry;
     TestCPUFeature_AVX512F := false;
     ReadBoolFromEnvVar := fun _ _ => (OK, false);
     GetCublasLtDsoHandle := ValueOf 4096%N;
     GetSymbolFromLibrary := symbols;
     GetNodeAttr := node_attr_type |}.

(** The same platform without cuBLASLt, the variable unset. *)
Definition ext_bare : Extern :=
  {| KernelsRegisteredForOp := registry;
     TestCPUFeature_AVX512F := false;
     ReadBoolFromEnvVar := fun _ d => (OK, d);
     GetCublasLtDsoHandle := StatusOf "libcublasLt.so: cannot open";
     GetSymbolFromLibrary := symbols;
     GetNodeAttr := node_attr_type |}.

Definition oss_mkl : Build :=
  {| PLATFORM_GOOGLE := false; ENABLE_MKL := true |}.

Definition w0 : World := fresh oss_mkl ext.

Definition add_node : Node :=
  {| def := {| node_name := "add_1"; node_op := "_MklAdd";
               node_attr := [("T", AttrType DT_FLOAT)] |};
     type_string := "_MklAdd" |}.

Definition const_node : Node :=
  {| def := {| node_name := "c"; node_op := "_MklAdd";
               node_attr := [("dtype", AttrType DT_FLOAT)] |};
     type_string := "_MklAdd" |}.

End Sample.

Module MoreSamples.

(** [TF_ENABLE_MKL_NATIVE_FORMAT] holds something that is not a bool. *)
Definition ext_garbled : Extern :=
  {| KernelsRegisteredForOp := Sample.registry;
     TestCPUFeature_AVX512F := false;
     ReadBoolFromEnvVar := fun _ d => (Error "not a bool", d);
     GetCublasLtDsoHandle := StatusOf "libcublasLt.so: cannot open";
     GetSymbolFromLibrary := Sample.symbols;
     GetNodeAttr := Sample.node_attr_type |}.

(** Every op has one name-change kernel, registered for FLOAT. *)
Definition ext_float_only : Extern :=
  {| KernelsRegisteredForOp := fun _ =>
       "device='CPU'; label='MklNameChangeOp'; T in [DT_FLOAT]";
     TestCPUFeature_AVX512F := false;
     ReadBoolFromEnvVar := fun _ d => (OK, d);
     GetCublasLtDsoHandle := StatusOf "libcublasLt.so: cannot open";
     GetSymbolFromLibrary := Sample.symbols;
     GetNodeAttr := Sample.node_attr_type |}.

(** The [string] overload of [GetNodeAttr] over [node_attr]. *)
Definition node_attr_string (nd : NodeDef) (name old : string)
    : Status * string :=
  match Sample.lookup_attr name (node_attr nd) with
  | Some (AttrString s) => (OK, s)
  | Some _ => (Error "attribute is not a string", old)
  | None => (Error "no such attribute", old)
  end.

Definition conv3d_def : NodeDef :=
  {| node_name := "conv"; node_op := "Conv3D";
     node_attr := [("T", AttrType DT_FLOAT);
                   ("data_format", AttrString "NDHWC")] |}.

End MoreSamples.

(* ================================================================== *)
(** ** Vocabulary of the statements *)

Definition b2n (b : bool) : nat := if b then 1%nat else 0%nat.

Definition has_handle (s : Statics) : bool :=
  match handle s with Some _ => true | None => false end.

(** The ops that keep the [_Mkl] prefix in native format mode, and the
    element-wise ops, as the header lists them. *)
Definition native_exceptions : list string :=
  ["ConjugateTranspose"; "BatchMatMul"; "BatchMatMulV2"; "MatMul";
   "Transpose"].

Definition elementwise_ops : list string :=
  ["Add"; "AddV2"; "Sub"; "Mul"; "Maximum"; "SquaredDifference"].

Definition mem (x : string) (l : list string) : bool :=
  List.existsb (String.eqb x) l.

(** The name the prose gives for an op: [_Mkl] + name when native format
    mode is off; when it is on, [_Mkl] + name for the five exceptions and
    [_MklNative] + name for the rest. *)
Definition mkl_op_name_spec (native : bool) (name : string) : string :=
  if native then
    if mem name native_exceptions then "_Mkl" ++ name
    else "_MklNative" ++ name
  else "_Mkl" ++ name.

(** [Quiet w w']: between [w] and [w'] only the trace and the BF16 warning
    flag may differ. *)
Record Quiet (w w' : World) : Prop := mkQuiet {
  quiet_build : build w' = build w;
  quiet_extern : extern w' = extern w;
  quiet_handle : handle (statics w') = handle (statics w);
  quiet_once : once (statics w') = once (statics w);
  quiet_native : native_fmt_enabled (statics w')
                 = native_fmt_enabled (statics w)
}.

(** [Step w w']: what a returning call may do to the world.  A value cached
    behind a guard stays, and each guarded effect is paid for by its guard
    going from clear to set. *)
Record Step (w w' : World) : Prop := mkStep {
  step_build : build w' = build w;
  step_handle : forall p, handle (statics w) = Some p ->
                          handle (statics w') = Some p;
  step_once : once (statics w) = true ->
              once (statics w') = true /\
              native_fmt_enabled (statics w')
              = native_fmt_enabled (statics w);
  step_dso : (count is_dso_load (trace w') + b2n (has_handle (statics w))
              <= count is_dso_load (trace w)
                 + b2n (has_handle (statics w')))%nat;
  step_env : (count is_env_read (trace w') + b2n (once (statics w))
              <= count is_env_read (trace w) + b2n (once (statics w')))%nat;
  step_warn : (count is_warning (trace w')
               + b2n (cpu_bfloat16_warn_once_flag (statics w))
               <= count is_warning (trace w)
                  + b2n (cpu_bfloat16_warn_once_flag (statics w')))%nat
}.

(** [Halt w w']: what a call that aborts the process may have done. *)
Record Halt (w w' : World) : Prop := mkHalt {
  halt_dso : (count is_dso_load (trace w') + b2n (has_handle (statics w))
              <= count is_dso_load (trace w) + 1)%nat;
  halt_env : (count is_env_read (trace w') + b2n (once (statics w))
              <= count is_env_read (trace w) + 1)%nat;
  halt_warn : (count is_warning (trace w')
               + b2n (cpu_bfloat16_warn_once_flag (statics w))
               <= count is_warning (trace w) + 1)%nat
}.

Definition sound {A} (m : M A) : Prop :=
  forall w, match m w with
            | Ret _ w' => Step w w'
            | Abort w' => Halt w w'
            end.

(** The handle and the format mode a process is committed to, once it is. *)
Definition dso_value (w : World) : option ptr :=
  if PLATFORM_GOOGLE (build w) then Some nullptr else handle (statics w).

Definition native_value (w : World) : option bool :=
  if ENABLE_MKL (build w) then
    if once (statics w) then Some (native_fmt_enabled (statics w)) else None
  else Some true.

(** A [Query] always returns, is [Quiet], and answers from what the
    framework and platform say alone. *)
Definition Query (m : M bool) : Prop :=
  (forall w, exists b w', m w = Ret b w' /\ Quiet w w') /\
  (forall w v, extern v = extern w -> value_of (m v) = value_of (m w)).

Definition env_var : string := "TF_ENABLE_MKL_NATIVE_FORMAT".

(** The handle [GetDsoHandle]'s initialiser computes. *)
Definition loaded_handle (e : Extern) : ptr :=
  match GetCublasLtDsoHandle e with
  | StatusOf _ => nullptr
  | ValueOf v => v
  end.

(** [Guarded p]: what the guards keep true of a running process.  Every
    event is in the log under some unit; a DSO load, an environment read
    and, per unit, a warning, are in the trace only if their guard is
    set. *)
Record Guarded (p : Process) : Prop := mkGuarded {
  guarded_log : List.map snd (log p) = trace (shared p);
  guarded_dso : (count is_dso_load (trace (shared p))
                 <= b2n (has_handle (statics (shared p))))%nat;
  guarded_env : (count is_env_read (trace (shared p))
                 <= b2n (once (statics (shared p))))%nat;
  guarded_warn : forall u, (count_in (is_warning_of u) (log p)
                            <= b2n (flags p u))%nat
}.

(** [Bounded p]: what is left of [Guarded] when the process has aborted
    in the middle of a call. *)
Record Bounded (p : Process) : Prop := mkBounded {
  bounded_log : List.map snd (log p) = trace (shared p);
  bounded_dso : (count is_dso_load (trace (shared p)) <= 1)%nat;
  bounded_env : (count is_env_read (trace (shared p)) <= 1)%nat;
  bounded_warn : forall u, (count_in (is_warning_of u) (log p) <= 1)%nat
}.

(** [grows m]: a call only adds events to the trace. *)
Definition grows {A} (m : M A) : Prop :=
  forall w, exists new, trace (world_of (m w)) = (new ++ trace w)%list.

(** The calls that abort the process whatever the world is:
    [LogFatalSymbolNotFound], and [Check5DFormat] on a node whose
    [data_format] attribute cannot be read. *)
Definition fatal_call (c : Call) : bool :=
  match c with
  | CLogFatalSymbolNotFound _ => true
  | CCheck5DFormat g ndef =>
      match fst (g ndef "data_format" "") with
      | OK => false
      | Error _ => true
      end
  | _ => false
  end.

(** The string [IsMklNameChangeOp] searches the kernel description for. *)
Definition name_change_pattern (T : DataType) : string :=
  "label='MklNameChangeOp'; T in [" ++ DataType_Name T ++ "]".

(* ================================================================== *)
(** * Facts *)

(** ** Integer arithmetic *)

Module CIntFacts.
Import CInt.

Lemma wrap_id z : in_int z -> wrap z = z.
Proof.
  unfold in_int, wrap, INT_MIN, INT_MAX. intros H.
  rewrite Z.mod_small; lia.
Qed.

Lemma wrap_in_int z : in_int (wrap z).
Proof.
  unfold in_int, wrap, INT_MIN, INT_MAX.
  pose proof (Z.mod_pos_bound (z + 2 ^ 31) (2 ^ 32) ltac:(lia)). lia.
Qed.

Lemma quot2_in_int z : in_int z -> in_int (Z.quot z 2).
Proof.
  unfold in_int, INT_MIN, INT_MAX. intros H.
  destruct (Z_le_gt_dec 0 z) as [Hz | Hz].
  - rewrite Z.quot_div_nonneg by lia.
    pose proof (Z.div_pos z 2 Hz ltac:(lia)).
    assert (z / 2 <= z) by (apply Z.div_le_upper_bound; lia). lia.
  - replace z with (- (- z)) by lia. rewrite Z.quot_opp_l by lia.
    rewrite Z.quot_div_nonneg by lia.
    pose proof (Z.div_pos (- z) 2 ltac:(lia) ltac:(lia)).
    assert (- z / 2 <= - z) by (apply Z.div_le_upper_bound; lia). lia.
Qed.

Lemma add_exact a b : in_int (a + b) -> add a b = a + b.
Proof. intros H. unfold add. now apply wrap_id. Qed.

Lemma div2_exact z : in_int z -> div z 2 = Z.quot z 2.
Proof. intros H. unfold div. apply wrap_id. now apply quot2_in_int. Qed.

End CIntFacts.

(** C2.  The ordering compiled in is the contiguous one, and under it
    [GetTensorMetaDataIndex n total_tensors] passes its checks and returns
    [n + total_tensors / 2]: the sum as [int] computes it, with [/] the
    truncating division, which is the exact integer [n + total_tensors / 2]
    whenever that number is an [int], and the floor division for a count
    that is not negative. *)
Theorem GetTensorMetaDataIndex_contiguous (n total_tensors : Z) :
  CInt.in_int n -> CInt.in_int total_tensors ->
  kTensorOrdering = TENSORS_CONTIGUOUS /\
  GetTensorMetaDataIndex n total_tensors
    = Some (CInt.add n (Z.quot total_tensors 2)) /\
  (CInt.in_int (n + Z.quot total_tensors 2) ->
   GetTensorMetaDataIndex n total_tensors
     = Some (n + Z.quot total_tensors 2)) /\
  (0 <= total_tensors -> Z.quot total_tensors 2 = total_tensors / 2).
Proof.
  intros Hn Ht.
  assert (E : GetTensorMetaDataIndex n total_tensors
              = Some (CInt.add n (Z.quot total_tensors 2))).
  { unfold GetTensorMetaDataIndex, GetTensorDataIndex,
      DataIndexToMetaDataIndex, CHECK_EQ. cbn.
    now rewrite CIntFacts.div2_exact. }
  split; [reflexivity|]. split; [exact E|]. split.
  - intros Hs. rewrite E. now rewrite CIntFacts.add_exact.
  - intros H0. apply Z.quot_div_nonneg; lia.
Qed.

Lemma GetTensorMetaDataIndex_contiguous_witness :
  GetTensorMetaDataIndex 1 6 = Some 4.
Proof.
  destruct (GetTensorMetaDataIndex_contiguous 1 6) as (_ & _ & H & _).
  - unfold CInt.in_int, CInt.INT_MIN, CInt.INT_MAX; lia.
  - unfold CInt.in_int, CInt.INT_MIN, CInt.INT_MAX; lia.
  - apply H. unfold CInt.in_int, CInt.INT_MIN, CInt.INT_MAX; cbn; lia.
Defined.

(** ** Strings *)

Lemma prefix_true_iff (p s : string) :
  String.prefix p s = true <-> exists t, s = p ++ t.
Proof.
  revert s. induction p as [|a p IH]; intros s.
  - split; [intros _; now exists s | intros _; now destruct s].
  - destruct s as [|b s]; cbn.
    + split; [discriminate | intros [t Ht]; discriminate].
    + destruct (Ascii.ascii_dec a b) as [->|Hab].
      * rewrite IH. split; intros [t Ht]; exists t.
        -- now rewrite Ht.
        -- now injection Ht.
      * split; [discriminate|]. intros [t Ht]. injection Ht as Hb _.
        congruence.
Qed.

Lemma find_from_some_iff (pat s : string) (pos : nat) :
  (exists i, find_from pat s pos = Some i) <->
  exists pre post, s = pre ++ pat ++ post.
Proof.
  revert pos. induction s as [|c s IH]; intros pos; cbn [find_from].
  - destruct (String.prefix pat "") eqn:E.
    + split; [|intros _; now eexists].
      intros _. apply prefix_true_iff in E as [t Ht].
      exists "", t. exact Ht.
    + split; [intros [i Hi]; discriminate|].
      intros (pre & post & H). destruct pre; [|discriminate].
      cbn in H. assert (String.prefix pat "" = true)
        by (apply prefix_true_iff; now exists post).
      congruence.
  - destruct (String.prefix pat (String c s)) eqn:E.
    + split; [|intros _; now eexists].
      intros _. apply prefix_true_iff in E as [t Ht].
      exists "", t. exact Ht.
    + rewrite (IH (S pos)). split.
      * intros (pre & post & H). exists (String c pre), post.
        cbn. now rewrite H.
      * intros (pre & post & H). destruct pre as [|d pre].
        -- cbn in H. assert (String.prefix pat (String c s) = true)
             by (apply prefix_true_iff; now exists post).
           congruence.
        -- cbn in H. injection H as _ H. now exists pre, post.
Qed.

(** [s.find(pat) != npos] says that [pat] occurs in [s]. *)
Lemma find_ne_npos_iff (s pat : string) :
  find_ne_npos s pat = true <-> exists pre post, s = pre ++ pat ++ post.
Proof.
  rewrite <- (find_from_some_iff pat s 0). unfold find_ne_npos, find.
  destruct (find_from pat s 0).
  - split; [intros _; now eexists | reflexivity].
  - split; [discriminate | intros [i Hi]; discriminate].
Qed.

Lemma compare_refl (a : string) : String.compare a a = Eq.
Proof.
  pose proof (String.compare_antisym a a) as H.
  destruct (String.compare a a); cbn in H; congruence.
Qed.

Lemma compare_eq0_iff (a b : string) : compare_eq0 a b = true <-> a = b.
Proof.
  unfold compare_eq0. split.
  - destruct (String.compare a b) eqn:E; try discriminate.
    intros _. now apply String.compare_eq_iff.
  - intros ->. now rewrite compare_refl.
Qed.

Lemma compare_eq0_refl (a : string) : compare_eq0 a a = true.
Proof. now apply compare_eq0_iff. Qed.

Lemma DataType_eqb_eq (a b : DataType) : DataType_eqb a b = true <-> a = b.
Proof.
  unfold DataType_eqb. rewrite Z.eqb_eq. split; [|now intros ->].
  destruct a; cbn; intros H; destruct b; cbn in H;
    first [reflexivity | discriminate H].
Qed.


(** ** Running the monad by hand *)

Ltac m_unfold :=
  unfold orM, fmap, call_once, call, ask, defined, load, store, emit,
    set_extern, LOG_ERROR, LOG_FATAL, TF_CHECK_OK, bind, ret in *.

Lemma bind_Ret {A B} (m : M A) (k : A -> M B) w a w' :
  m w = Ret a w' -> bind m k w = k a w'.
Proof. unfold bind. now intros ->. Qed.

Lemma bind_Abort {A B} (m : M A) (k : A -> M B) w w' :
  m w = Abort w' -> bind m k w = Abort w'.
Proof. unfold bind. now intros ->. Qed.

Lemma compare_eq0_eqb (a b : string) : compare_eq0 a b = String.eqb a b.
Proof.
  destruct (String.eqb a b) eqn:E.
  - apply compare_eq0_iff. now apply String.eqb_eq.
  - destruct (compare_eq0 a b) eqn:F; [|reflexivity].
    apply compare_eq0_iff in F. apply String.eqb_neq in E. contradiction.
Qed.

Lemma append_length (a b : string) :
  String.length (a ++ b) = (String.length a + String.length b)%nat.
Proof. induction a; cbn; congruence. Qed.

Lemma GetMklNativeOpName_spec (name : string) :
  GetMklNativeOpName name = mkl_op_name_spec true name.
Proof.
  unfold GetMklNativeOpName, mkl_op_name_spec, mem, native_exceptions.
  cbn [existsb]. rewrite !compare_eq0_eqb, orb_false_r, !orb_assoc.
  reflexivity.
Qed.

Lemma mem_In (x : string) (l : list string) : mem x l = true <-> In x l.
Proof.
  unfold mem. rewrite existsb_exists. split.
  - intros (y & Hy & E). apply String.eqb_eq in E. now subst.
  - intros H. exists x. split; [exact H | apply String.eqb_refl].
Qed.

(** [GetMklOpName] is [NativeFormatEnabled] followed by the choice of the
    prefix; it aborts exactly when [NativeFormatEnabled] does. *)
Lemma GetMklOpName_eq (name : string) (w : World) :
  GetMklOpName name w
  = fmap (fun native => mkl_op_name_spec native name) NativeFormatEnabled w.
Proof.
  unfold GetMklOpName, fmap, bind, ret.
  destruct (NativeFormatEnabled w) as [[|] w'|w']; cbn;
    [now rewrite GetMklNativeOpName_spec | reflexivity | reflexivity].
Qed.

(** C6.  [GetMklOpName name] reads the format mode with
    [NativeFormatEnabled] and returns the name the prose gives for that
    mode: ["_Mkl" ++ name] when native format mode is off; when it is on,
    ["_Mkl" ++ name] for exactly the five ops ConjugateTranspose,
    BatchMatMul, BatchMatMulV2, MatMul and Transpose, and
    ["_MklNative" ++ name] for every other name. *)
Theorem GetMklOpName_prefix (name : string) (w : World) :
  GetMklOpName name w
  = fmap (fun native => mkl_op_name_spec native name) NativeFormatEnabled w
  /\ mkl_op_name_spec false name = "_Mkl" ++ name
  /\ (mkl_op_name_spec true name = "_Mkl" ++ name
      <-> In name ["ConjugateTranspose"; "BatchMatMul"; "BatchMatMulV2";
                   "MatMul"; "Transpose"])
  /\ (~ In name ["ConjugateTranspose"; "BatchMatMul"; "BatchMatMulV2";
                 "MatMul"; "Transpose"]
      -> mkl_op_name_spec true name = "_MklNative" ++ name).
Proof.
  pose proof (mem_In name native_exceptions) as Hmem.
  change ["ConjugateTranspose"; "BatchMatMul"; "BatchMatMulV2"; "MatMul";
          "Transpose"] with native_exceptions.
  split; [apply GetMklOpName_eq|]. split; [reflexivity|]. split.
  - unfold mkl_op_name_spec.
    destruct (mem name native_exceptions) eqn:E.
    + split; [intros _; now apply Hmem | reflexivity].
    + split.
      * intros H. apply (f_equal String.length) in H.
        rewrite !append_length in H. cbn in H. lia.
      * intros H. apply Hmem in H. discriminate H.
  - intros H. unfold mkl_op_name_spec.
    destruct (mem name native_exceptions) eqn:E; [|reflexivity].
    exfalso. apply H. now apply Hmem.
Qed.

Lemma GetMklOpName_prefix_witness :
  mkl_op_name_spec true "Conv2D" = "_MklNativeConv2D".
Proof.
  apply (proj2 (proj2 (proj2 (GetMklOpName_prefix "Conv2D" Sample.w0)))).
  cbn. intros H.
  repeat (destruct H as [H|H]; [discriminate H|]). exact H.
Defined.

(** C7.  The overload [IsMklLayoutDependentOp(op_name, Tinput, Tfilter)]
    does not depend on [Tinput]: any two input types give the same result
    in the same world.  It returns, leaves the world as it was, and its
    value is true exactly when the kernel description of [op_name] contains
    the quantized-op label pattern and [Tfilter] is [DT_QINT8]. *)
Theorem IsMklLayoutDependentOp2_ignores_Tinput
    (op_name : string) (Tinput1 Tinput2 Tfilter : DataType) (w : World) :
  IsMklLayoutDependentOp2 op_name Tinput1 Tfilter w
  = IsMklLayoutDependentOp2 op_name Tinput2 Tfilter w
  /\ exists b,
       IsMklLayoutDependentOp2 op_name Tinput1 Tfilter w = Ret b w
       /\ (b = true <->
           (exists pre post,
              KernelsRegisteredForOp (extern w) op_name
              = pre ++ "label='QuantizedMklOp'" ++ post)
           /\ Tfilter = DT_QINT8).
Proof.
  split; [reflexivity|].
  unfold IsMklLayoutDependentOp2. m_unfold.
  change kMklQuantizedOpLabelPattern with "label='QuantizedMklOp'".
  pose proof (find_ne_npos_iff (KernelsRegisteredForOp (extern w) op_name)
                "label='QuantizedMklOp'") as Hf.
  destruct (find_ne_npos _ _).
  - eexists. split; [reflexivity|]. rewrite DataType_eqb_eq.
    split; [intros ->; split; [now apply Hf | reflexivity] | now intros [_ H]].
  - exists false. split; [reflexivity|]. split; [discriminate|].
    intros [H _]. apply Hf in H. discriminate.
Qed.

(** C5.  For a node whose ["T"] attribute cannot be read ([GetNodeAttr]
    answers with an error) [IsMklOp(n)] returns false, and touches nothing;
    when [GetNodeAttr] yields a type [T], [IsMklOp(n)] is the call
    [IsMklOp(n->type_string(), T)]. *)
Theorem IsMklOp_node_spec (n : Node) (w : World) :
  (forall msg, GetNodeAttr (extern w) (def n) "T" = StatusOf msg ->
               IsMklOp_node n w = Ret false w)
  /\ (forall T, GetNodeAttr (extern w) (def n) "T" = ValueOf T ->
                IsMklOp_node n w = IsMklOp (type_string n) T w).
Proof.
  unfold IsMklOp_node. m_unfold. split; intros x H; now rewrite H.
Qed.

Lemma IsMklOp_node_spec_witness :
  IsMklOp_node Sample.const_node Sample.w0 = Ret false Sample.w0
  /\ IsMklOp_node Sample.add_node Sample.w0
     = IsMklOp "_MklAdd" DT_FLOAT Sample.w0.
Proof.
  split.
  - apply (proj1 (IsMklOp_node_spec Sample.const_node Sample.w0)
             "no such attribute"). reflexivity.
  - apply (proj2 (IsMklOp_node_spec Sample.add_node Sample.w0) DT_FLOAT).
    reflexivity.
Defined.


Ltac m_cases :=
  repeat match goal with
         | |- context [if ?c then _ else _] => destruct c eqn:?; cbn
         end.

Lemma Quiet_refl w : Quiet w w.
Proof. now constructor. Qed.

Lemma Quiet_trans w1 w2 w3 : Quiet w1 w2 -> Quiet w2 w3 -> Quiet w1 w3.
Proof. intros [] []. constructor; congruence. Qed.


Lemma Query_value m w :
  Query m -> exists b, value_of (m w) = Some b.
Proof.
  intros [H _]. destruct (H w) as (b & w' & E & _). rewrite E. now exists b.
Qed.

Lemma Query_orM a b : Query a -> Query b -> Query (orM a b).
Proof.
  intros [Ta Ea] [Tb Eb]. split.
  - intros w. unfold orM, bind, ret.
    destruct (Ta w) as (x & w1 & E1 & Q1). rewrite E1.
    destruct x; [now exists true, w1|].
    destruct (Tb w1) as (y & w2 & E2 & Q2). rewrite E2.
    exists y, w2. split; [reflexivity | now apply Quiet_trans with w1].
  - intros w v Hv. unfold orM, bind, ret.
    destruct (Ta w) as (x & w1 & E1 & Q1).
    destruct (Ta v) as (x' & v1 & E1' & Q1').
    pose proof (Ea w v Hv) as H. rewrite E1, E1' in H |- *. cbn in H.
    injection H as ->. destruct x; [reflexivity|].
    apply Eb. destruct Q1, Q1'. congruence.
Qed.

Lemma orM_value a b w :
  Query a -> Query b ->
  exists x y, value_of (a w) = Some x /\ value_of (b w) = Some y /\
              value_of (orM a b w) = Some (x || y).
Proof.
  intros [Ta Ea] [Tb Eb]. unfold orM, bind, ret.
  destruct (Ta w) as (x & w1 & E1 & Q1). rewrite E1.
  destruct (Tb w) as (y & w2 & E2 & Q2). rewrite E2.
  exists x, y. split; [reflexivity|]. split; [reflexivity|].
  destruct x; [reflexivity|]. cbn.
  rewrite (Eb w w1), E2; [reflexivity | now destruct Q1].
Qed.

Lemma Query_IsMklLayoutDependentOp op T : Query (IsMklLayoutDependentOp op T).
Proof.
  split.
  - intros w. unfold IsMklLayoutDependentOp, IsBF16SupportedByOneDNNOnThisCPU,
      BF16UnsupportedWarning. m_unfold. cbn.
    m_cases; eexists; eexists; (split; [reflexivity|]);
      constructor; reflexivity.
  - intros w v Hv. unfold IsMklLayoutDependentOp,
      IsBF16SupportedByOneDNNOnThisCPU, BF16UnsupportedWarning.
    m_unfold. cbn. rewrite Hv. m_cases; first [reflexivity | congruence].
Qed.

Lemma Query_IsMklNameChangeOp op T : Query (IsMklNameChangeOp op T).
Proof.
  split.
  - intros w. unfold IsMklNameChangeOp, IsBF16SupportedByOneDNNOnThisCPU,
      BF16UnsupportedWarning. m_unfold. cbn.
    m_cases; eexists; eexists; (split; [reflexivity|]);
      constructor; reflexivity.
  - intros w v Hv. unfold IsMklNameChangeOp,
      IsBF16SupportedByOneDNNOnThisCPU, BF16UnsupportedWarning.
    m_unfold. cbn. rewrite Hv. m_cases; first [reflexivity | congruence].
Qed.

Lemma Query_IsMklOp op T : Query (IsMklOp op T).
Proof.
  apply Query_orM;
    [apply Query_IsMklLayoutDependentOp | apply Query_IsMklNameChangeOp].
Qed.

(** C1.  In every world the three calls return, and [IsMklOp(op_name, T)]
    returns true if and only if [IsMklLayoutDependentOp(op_name, T)]
    returns true or [IsMklNameChangeOp(op_name, T)] returns true: its value
    is the disjunction of theirs, although the second call runs only when
    the first says no, and then in the world the first call left. *)
Theorem IsMklOp_iff (op_name : string) (T : DataType) (w : World) :
  exists layout rename,
    value_of (IsMklLayoutDependentOp op_name T w) = Some layout /\
    value_of (IsMklNameChangeOp op_name T w) = Some rename /\
    value_of (IsMklOp op_name T w) = Some (layout || rename) /\
    (value_of (IsMklOp op_name T w) = Some true <->
     value_of (IsMklLayoutDependentOp op_name T w) = Some true \/
     value_of (IsMklNameChangeOp op_name T w) = Some true).
Proof.
  destruct (orM_value (IsMklLayoutDependentOp op_name T)
              (IsMklNameChangeOp op_name T) w
              (Query_IsMklLayoutDependentOp op_name T)
              (Query_IsMklNameChangeOp op_name T))
    as (x & y & Hx & Hy & Hxy).
  exists x, y. fold (IsMklOp op_name T) in Hxy.
  rewrite Hx, Hy, Hxy. repeat split.
  - intros H. injection H as H. apply orb_true_iff in H.
    destruct H as [-> | ->]; [now left | now right].
  - intros [H | H]; injection H as ->; [reflexivity|].
    now rewrite orb_true_r.
Qed.


(** ** [NativeFormatEnabled] *)


Lemma NativeFormatEnabled_eq w :
  NativeFormatEnabled w =
  if ENABLE_MKL (build w) then
    if once (statics w) then Ret (native_fmt_enabled (statics w)) w
    else
      let r := ReadBoolFromEnvVar (extern w) env_var true in
      let tr := CallReadBoolFromEnvVar env_var :: trace w in
      match fst r with
      | OK =>
          Ret (snd r)
            {| build := build w; extern := extern w;
               statics := set_once (set_native_fmt_enabled (snd r)
                                      (statics w));
               trace := tr |}
      | Error msg =>
          Abort
            {| build := build w; extern := extern w;
               statics := set_native_fmt_enabled (snd r) (statics w);
               trace := LogFatal msg :: tr |}
      end
  else Ret true w.
Proof.
  unfold NativeFormatEnabled, env_var. m_unfold. cbn.
  destruct (ENABLE_MKL (build w)); cbn; [|reflexivity].
  destruct (once (statics w)); cbn; [reflexivity|].
  destruct (fst (ReadBoolFromEnvVar (extern w) _ _)); reflexivity.
Qed.

Lemma NativeFormatEnabled_idem w v w' :
  NativeFormatEnabled w = Ret v w' -> NativeFormatEnabled w' = Ret v w'.
Proof.
  rewrite !NativeFormatEnabled_eq.
  destruct (ENABLE_MKL (build w)) eqn:Eb.
  - destruct (once (statics w)) eqn:Eo.
    + intros H. injection H as <- <-. now rewrite Eb, Eo.
    + cbn. destruct (fst (ReadBoolFromEnvVar (extern w) _ _));
        [|discriminate].
      intros H. injection H as <- <-. cbn. now rewrite Eb.
  - intros H. injection H as <- <-. now rewrite Eb.
Qed.

Lemma NativeFormatEnabled_Quiet w w1 :
  Quiet w w1 ->
  value_of (NativeFormatEnabled w1) = value_of (NativeFormatEnabled w).
Proof.
  intros [Hb He Hh Ho Hn]. rewrite !NativeFormatEnabled_eq.
  rewrite Hb, He, Ho, Hn.
  destruct (ENABLE_MKL (build w)); [|reflexivity].
  destruct (once (statics w)); [reflexivity|]. cbn.
  destruct (fst (ReadBoolFromEnvVar (extern w) _ _)); reflexivity.
Qed.

Lemma GetMklOpName_value x w :
  value_of (GetMklOpName x w)
  = option_map (fun native => mkl_op_name_spec native x)
      (value_of (NativeFormatEnabled w)).
Proof.
  rewrite GetMklOpName_eq. unfold fmap, bind, ret.
  now destruct (NativeFormatEnabled w).
Qed.

Lemma named_run op x w v w' :
  NativeFormatEnabled w = Ret v w' ->
  (s <- GetMklOpName x ;; ret (compare_eq0 op s)) w
  = Ret (compare_eq0 op (mkl_op_name_spec v x)) w'.
Proof.
  intros H. unfold bind at 1. rewrite GetMklOpName_eq.
  unfold fmap, bind, ret. now rewrite H.
Qed.

Lemma IsMklElementWiseOp_run op T w :
  exists b w1,
    IsMklOp op T w = Ret b w1 /\ Quiet w w1 /\
    IsMklElementWiseOp op T w
    = if b then
        match NativeFormatEnabled w1 with
        | Ret v w2 =>
            Ret (existsb (fun x => compare_eq0 op (mkl_op_name_spec v x))
                   elementwise_ops) w2
        | Abort w2 => Abort w2
        end
      else Ret false w1.
Proof.
  destruct (proj1 (Query_IsMklOp op T) w) as (b & w1 & E & Q).
  exists b, w1. split; [exact E|]. split; [exact Q|].
  unfold IsMklElementWiseOp. rewrite (bind_Ret _ _ _ _ _ E).
  destruct b; cbn [negb]; [|reflexivity].
  destruct (NativeFormatEnabled w1) as [v w2|w2] eqn:N.
  - pose proof (NativeFormatEnabled_idem _ _ _ N) as I.
    unfold elementwise_ops. cbn [existsb]. unfold orM.
    rewrite (bind_Ret _ _ _ _ _ (named_run op "Add" _ _ _ N)).
    destruct (compare_eq0 op (mkl_op_name_spec v "Add")); [reflexivity|].
    rewrite (bind_Ret _ _ _ _ _ (named_run op "AddV2" _ _ _ I)).
    destruct (compare_eq0 op (mkl_op_name_spec v "AddV2")); [reflexivity|].
    rewrite (bind_Ret _ _ _ _ _ (named_run op "Sub" _ _ _ I)).
    destruct (compare_eq0 op (mkl_op_name_spec v "Sub")); [reflexivity|].
    rewrite (bind_Ret _ _ _ _ _ (named_run op "Mul" _ _ _ I)).
    destruct (compare_eq0 op (mkl_op_name_spec v "Mul")); [reflexivity|].
    rewrite (bind_Ret _ _ _ _ _ (named_run op "Maximum" _ _ _ I)).
    destruct (compare_eq0 op (mkl_op_name_spec v "Maximum")); [reflexivity|].
    rewrite (named_run op "SquaredDifference" _ _ _ I).
    now rewrite orb_false_r.
  - unfold orM. apply bind_Abort. apply bind_Abort.
    unfold GetMklOpName. now apply bind_Abort.
Qed.

(** C8, as the code has it.  When [IsMklElementWiseOp(op_name, T)]
    returns true, then [IsMklOp(op_name, T)] returns true and [op_name] is
    what [GetMklOpName(x)] returns for some [x] among Add, AddV2, Sub, Mul,
    Maximum and SquaredDifference.  For an [op_name] that is not what
    [GetMklOpName(x)] returns for any of these six, [IsMklElementWiseOp]
    returns false whenever [IsMklOp] returns false or
    [NativeFormatEnabled] returns.  When [IsMklOp] returns true and
    [NativeFormatEnabled] aborts, [IsMklElementWiseOp] aborts the process
    and returns nothing. *)
Theorem IsMklElementWiseOp_false_or_abort (op_name : string) (T : DataType)
    (w : World) :
  (forall w', IsMklElementWiseOp op_name T w = Ret true w' ->
     value_of (IsMklOp op_name T w) = Some true /\
     exists x, In x ["Add"; "AddV2"; "Sub"; "Mul"; "Maximum";
                     "SquaredDifference"] /\
               value_of (GetMklOpName x w) = Some op_name) /\
  ((forall x, In x ["Add"; "AddV2"; "Sub"; "Mul"; "Maximum";
                    "SquaredDifference"] ->
              value_of (GetMklOpName x w) <> Some op_name) ->
   (value_of (IsMklOp op_name T w) = Some false \/
    value_of (NativeFormatEnabled w) <> None) ->
   value_of (IsMklElementWiseOp op_name T w) = Some false) /\
  (value_of (IsMklOp op_name T w) = Some true ->
   value_of (NativeFormatEnabled w) = None ->
   value_of (IsMklElementWiseOp op_name T w) = None).
Proof.
  change ["Add"; "AddV2"; "Sub"; "Mul"; "Maximum"; "SquaredDifference"]
    with elementwise_ops.
  destruct (IsMklElementWiseOp_run op_name T w) as (b & w1 & E & Q & R).
  pose proof (NativeFormatEnabled_Quiet _ _ Q) as N.
  split; [|split].
  - intros w' H. rewrite R in H. rewrite E. destruct b; [|discriminate].
    split; [reflexivity|].
    destruct (NativeFormatEnabled w1) as [v w2|w2]; [|discriminate].
    assert (X : existsb (fun x => compare_eq0 op_name (mkl_op_name_spec v x))
                  elementwise_ops = true) by (injection H; auto).
    apply existsb_exists in X as (x & Hx & Hc).
    exists x. split; [exact Hx|]. rewrite GetMklOpName_value, <- N. cbn.
    apply compare_eq0_iff in Hc. now rewrite Hc.
  - intros H C. rewrite R. rewrite E in C. destruct b; [|reflexivity].
    destruct C as [C|C]; [discriminate C|]. rewrite <- N in C.
    destruct (NativeFormatEnabled w1) as [v w2|w2] eqn:Nv;
      [|now contradiction C].
    destruct (existsb (fun x => compare_eq0 op_name (mkl_op_name_spec v x))
                elementwise_ops) eqn:X; [|reflexivity].
    apply existsb_exists in X as (x & Hx & Hc). exfalso.
    apply (H x Hx). rewrite GetMklOpName_value, <- N. cbn.
    apply compare_eq0_iff in Hc. now rewrite Hc.
  - intros B A. rewrite R. rewrite E in B. injection B as ->.
    rewrite <- N in A. now destruct (NativeFormatEnabled w1).
Qed.

Lemma IsMklElementWiseOp_false_or_abort_witness :
  value_of (IsMklOp "_MklAdd" DT_FLOAT Sample.w0) = Some true
  /\ value_of (IsMklElementWiseOp "_MklConv2D" DT_FLOAT Sample.w0)
     = Some false
  /\ value_of (IsMklElementWiseOp "_MklAdd" DT_FLOAT
                 (fresh Sample.oss_mkl MoreSamples.ext_garbled)) = None.
Proof.
  split; [|split].
  - apply (proj1 (IsMklElementWiseOp_false_or_abort "_MklAdd" DT_FLOAT
                    Sample.w0)
             (world_of (IsMklElementWiseOp "_MklAdd" DT_FLOAT Sample.w0))).
    vm_compute. reflexivity.
  - apply (proj1 (proj2 (IsMklElementWiseOp_false_or_abort "_MklConv2D"
                           DT_FLOAT Sample.w0))).
    + intros x Hx. cbn in Hx.
      repeat (destruct Hx as [<-|Hx]; [discriminate|]). contradiction.
    + right. discriminate.
  - apply (proj2 (proj2 (IsMklElementWiseOp_false_or_abort "_MklAdd"
                           DT_FLOAT
                           (fresh Sample.oss_mkl MoreSamples.ext_garbled))));
      reflexivity.
Defined.

(** C8, as the claim has it, fails: ["_MklConv2D"] is not the MKL name of
    any of the six element-wise ops, in either format mode, yet with
    [TF_ENABLE_MKL_NATIVE_FORMAT] unreadable [IsMklElementWiseOp] does not
    return false for it: [IsMklOp] says yes and the process aborts. *)
Lemma IsMklElementWiseOp_aborts_outside_the_set :
  let w := fresh Sample.oss_mkl MoreSamples.ext_garbled in
  (forall x, In x ["Add"; "AddV2"; "Sub"; "Mul"; "Maximum";
                   "SquaredDifference"] ->
     "_MklConv2D" <> kMklOpPrefix ++ x /\
     "_MklConv2D" <> GetMklNativeOpName x /\
     value_of (GetMklOpName x w) <> Some "_MklConv2D") /\
  value_of (IsMklOp "_MklConv2D" DT_FLOAT w) = Some true /\
  value_of (IsMklElementWiseOp "_MklConv2D" DT_FLOAT w) = None /\
  value_of (IsMklElementWiseOp "_MklConv2D" DT_FLOAT w) <> Some false.
Proof.
  cbv zeta. split; [|split; [reflexivity | split; [reflexivity|]]].
  - intros x Hx. cbn in Hx.
    repeat (destruct Hx as [<-|Hx];
            [split; [discriminate | split; discriminate]|]).
    contradiction.
  - discriminate.
Qed.

(** ** The stub *)


Lemma GetDsoHandle_eq w :
  GetDsoHandle w =
  if PLATFORM_GOOGLE (build w) then Ret nullptr w
  else match handle (statics w) with
       | Some p => Ret p w
       | None =>
           Ret (loaded_handle (extern w))
             {| build := build w; extern := extern w;
                statics := set_handle (loaded_handle (extern w)) (statics w);
                trace := CallGetCublasLtDsoHandle :: trace w |}
       end.
Proof.
  unfold GetDsoHandle, loaded_handle. m_unfold. cbn.
  destruct (PLATFORM_GOOGLE (build w)); [reflexivity|].
  destruct (handle (statics w)); reflexivity.
Qed.

Lemma GetDsoHandle_total w :
  exists h w1, GetDsoHandle w = Ret h w1 /\ extern w1 = extern w.
Proof.
  rewrite GetDsoHandle_eq. destruct (PLATFORM_GOOGLE (build w)).
  - now exists nullptr, w.
  - destruct (handle (statics w)) as [p|]; eexists; eexists; split;
      reflexivity.
Qed.

Lemma LoadSymbol_eq s w :
  LoadSymbol s w =
  match GetDsoHandle w with
  | Ret h w1 =>
      if negb (N.eqb h nullptr) then
        Ret (snd (GetSymbolFromLibrary (extern w1) h s nullptr))
          {| build := build w1; extern := extern w1; statics := statics w1;
             trace := CallGetSymbolFromLibrary h s :: trace w1 |}
      else Ret nullptr w1
  | Abort w1 => Abort w1
  end.
Proof.
  unfold LoadSymbol. unfold bind at 1.
  destruct (GetDsoHandle w) as [h w1|w1]; [|reflexivity].
  destruct (negb (N.eqb h nullptr)); reflexivity.
Qed.

(** C4.  [GetDsoHandle] and [LoadSymbol] always return, no error is
    raised.  With [h] the handle [GetDsoHandle] returns (on first use
    outside the Google platform: the loader's handle, or null when loading
    the DSO failed):
      - when [h] is not null and the look-up of [symbol_name] in [h]
        succeeds with address [p], [LoadSymbol] returns [p];
      - when [h] is null, [LoadSymbol] returns null;
      - when the look-up fails and leaves the symbol null, [LoadSymbol]
        returns null. *)
Theorem LoadSymbol_resolves (symbol_name : string) (w : World) :
  (exists h w1, GetDsoHandle w = Ret h w1) /\
  (exists p w2, LoadSymbol symbol_name w = Ret p w2) /\
  (forall h w1, GetDsoHandle w = Ret h w1 ->
     (PLATFORM_GOOGLE (build w) = false -> handle (statics w) = None ->
      forall v, GetCublasLtDsoHandle (extern w) = ValueOf v -> h = v) /\
     (PLATFORM_GOOGLE (build w) = false -> handle (statics w) = None ->
      forall msg, GetCublasLtDsoHandle (extern w) = StatusOf msg ->
                  h = nullptr) /\
     (h <> nullptr ->
      forall p, GetSymbolFromLibrary (extern w) h symbol_name nullptr
                = (OK, p) ->
                value_of (LoadSymbol symbol_name w) = Some p) /\
     (h = nullptr -> value_of (LoadSymbol symbol_name w) = Some nullptr) /\
     (forall msg, GetSymbolFromLibrary (extern w) h symbol_name nullptr
                  = (Error msg, nullptr) ->
                  value_of (LoadSymbol symbol_name w) = Some nullptr)).
Proof.
  destruct (GetDsoHandle_total w) as (h0 & w0 & E0 & X0).
  split; [now exists h0, w0|]. split.
  { rewrite LoadSymbol_eq, E0.
    destruct (negb (N.eqb h0 nullptr)); eexists; eexists; reflexivity. }
  intros h w1 E. rewrite E in E0. injection E0 as <- <-.
  repeat split.
  - intros G Hn v Hv. rewrite GetDsoHandle_eq, G, Hn in E.
    injection E as <- _. unfold loaded_handle. now rewrite Hv.
  - intros G Hn msg Hm. rewrite GetDsoHandle_eq, G, Hn in E.
    injection E as <- _. unfold loaded_handle. now rewrite Hm.
  - intros Hh p Hp. rewrite LoadSymbol_eq, E.
    apply N.eqb_neq in Hh. rewrite Hh. cbn. now rewrite X0, Hp.
  - intros ->. rewrite LoadSymbol_eq, E. reflexivity.
  - intros msg Hm. rewrite LoadSymbol_eq, E.
    destruct (negb (N.eqb h nullptr)); [|reflexivity].
    cbn. now rewrite X0, Hm.
Qed.

Lemma LoadSymbol_resolves_witness :
  value_of (LoadSymbol "cublasLtCreate" Sample.w0) = Some 8192%N
  /\ value_of (LoadSymbol "cublasLtNope" Sample.w0) = Some nullptr
  /\ value_of (LoadSymbol "cublasLtCreate"
                 (fresh Sample.oss_mkl Sample.ext_bare)) = Some nullptr.
Proof.
  split; [|split].
  - refine (proj1 (proj2 (proj2
      (proj2 (proj2 (LoadSymbol_resolves "cublasLtCreate" Sample.w0))
         4096%N (world_of (GetDsoHandle Sample.w0)) _))) _ 8192%N _).
    + reflexivity.
    + discriminate.
    + reflexivity.
  - refine (proj2 (proj2 (proj2 (proj2
      (proj2 (proj2 (LoadSymbol_resolves "cublasLtNope" Sample.w0))
         4096%N (world_of (GetDsoHandle Sample.w0)) _)))) "undefined symbol" _).
    + reflexivity.
    + reflexivity.
  - refine (proj1 (proj2 (proj2 (proj2
      (proj2 (proj2 (LoadSymbol_resolves "cublasLtCreate"
                       (fresh Sample.oss_mkl Sample.ext_bare)))
         nullptr
         (world_of (GetDsoHandle (fresh Sample.oss_mkl Sample.ext_bare)))
         _)))) _).
    + reflexivity.
    + reflexivity.
Defined.


(** ** Guards: every call is [sound] *)

Lemma Step_refl w : Step w w.
Proof. constructor; auto. Qed.

Lemma Step_trans w1 w2 w3 : Step w1 w2 -> Step w2 w3 -> Step w1 w3.
Proof.
  intros [B1 H1 O1 D1 E1 W1] [B2 H2 O2 D2 E2 W2].
  constructor; try lia; try congruence; auto.
  intros Ho. destruct (O1 Ho) as [Ho1 N1]. destruct (O2 Ho1) as [Ho2 N2].
  split; congruence.
Qed.

Lemma b2n_le1 b : (b2n b <= 1)%nat.
Proof. destruct b; cbn; lia. Qed.

Lemma Step_Halt w w' : Step w w' -> Halt w w'.
Proof.
  intros [B H O D E W].
  pose proof (b2n_le1 (has_handle (statics w'))).
  pose proof (b2n_le1 (once (statics w'))).
  pose proof (b2n_le1 (cpu_bfloat16_warn_once_flag (statics w'))).
  constructor; lia.
Qed.

Lemma Step_then_Halt w1 w2 w3 : Step w1 w2 -> Halt w2 w3 -> Halt w1 w3.
Proof. intros [B H O D E W] [D' E' W']. constructor; lia. Qed.

Lemma sound_ret {A} (a : A) : sound (ret a).
Proof. intros w. apply Step_refl. Qed.

Lemma sound_bind {A B} (m : M A) (k : A -> M B) :
  sound m -> (forall a, sound (k a)) -> sound (bind m k).
Proof.
  intros Hm Hk w. unfold bind. specialize (Hm w).
  destruct (m w) as [a w1|w1]; [|exact Hm].
  specialize (Hk a w1). destruct (k a w1) as [b w2|w2].
  - now apply Step_trans with w1.
  - now apply Step_then_Halt with w1.
Qed.

Lemma sound_ask {A} (f : Extern -> A) : sound (ask f).
Proof. intros w. apply Step_refl. Qed.

Lemma sound_defined f : sound (defined f).
Proof. intros w. apply Step_refl. Qed.

Lemma sound_load {A} (f : Statics -> A) : sound (load f).
Proof. intros w. apply Step_refl. Qed.

Lemma sound_set_extern e : sound (set_extern e).
Proof. intros w. cbn. constructor; cbn; auto. Qed.

(** An event that is neither a DSO load, nor an environment read, nor a
    warning, can be left in the trace at will. *)
Lemma sound_call_free {A} ev (f : Extern -> A) :
  is_dso_load ev = false -> is_env_read ev = false ->
  is_warning ev = false -> sound (call ev f).
Proof.
  intros Hd He Hw w. unfold call. m_unfold. cbn.
  constructor; cbn; auto; unfold count; cbn; rewrite ?Hd, ?He, ?Hw; lia.
Qed.

Lemma sound_orM a b : sound a -> sound b -> sound (orM a b).
Proof.
  intros Ha Hb. apply sound_bind; [exact Ha|].
  intros []; [apply sound_ret | exact Hb].
Qed.

Lemma sound_fmap {A B} (f : A -> B) m : sound m -> sound (fmap f m).
Proof. intros H. apply sound_bind; [exact H | intros a; apply sound_ret]. Qed.

Lemma sound_GetDsoHandle : sound GetDsoHandle.
Proof.
  intros w. rewrite GetDsoHandle_eq.
  destruct (PLATFORM_GOOGLE (build w)); [apply Step_refl|].
  destruct (handle (statics w)) as [p|] eqn:E; [apply Step_refl|].
  constructor; cbn; auto; unfold has_handle, count; cbn; rewrite ?E; cbn;
    try lia. discriminate.
Qed.

Lemma sound_LoadSymbol s : sound (LoadSymbol s).
Proof.
  unfold LoadSymbol. apply sound_bind; [apply sound_GetDsoHandle|].
  intros h. destruct (negb (N.eqb h nullptr)); [|apply sound_ret].
  apply sound_bind; [|intros r; apply sound_ret].
  now apply sound_call_free.
Qed.

Lemma sound_NativeFormatEnabled : sound NativeFormatEnabled.
Proof.
  intros w. rewrite NativeFormatEnabled_eq.
  destruct (ENABLE_MKL (build w)); [|apply Step_refl].
  destruct (once (statics w)) eqn:E; [apply Step_refl|]. cbn.
  destruct (fst (ReadBoolFromEnvVar (extern w) env_var true)).
  - constructor; cbn; auto; unfold count; cbn; rewrite ?E; cbn; try lia;
      discriminate.
  - pose proof (b2n_le1 (has_handle (statics w))).
    pose proof (b2n_le1 (cpu_bfloat16_warn_once_flag (statics w))).
    constructor; cbn; unfold count; cbn; rewrite ?E; cbn; lia.
Qed.

Lemma sound_BF16UnsupportedWarning : sound BF16UnsupportedWarning.
Proof.
  intros w. unfold BF16UnsupportedWarning. m_unfold. cbn.
  destruct (cpu_bfloat16_warn_once_flag (statics w)) eqn:E; cbn;
    [apply Step_refl|].
  constructor; cbn; auto; unfold count; cbn; rewrite ?E; cbn; lia.
Qed.

Lemma sound_IsBF16Supported : sound IsBF16SupportedByOneDNNOnThisCPU.
Proof. now apply sound_call_free. Qed.

Create HintDb sound.
#[local] Hint Resolve sound_ret sound_ask sound_defined sound_load
  sound_set_extern sound_GetDsoHandle sound_LoadSymbol
  sound_NativeFormatEnabled sound_BF16UnsupportedWarning
  sound_IsBF16Supported : sound.

Ltac sound_tac :=
  repeat first
    [ solve [auto with sound]
    | apply sound_orM
    | apply sound_fmap
    | apply sound_bind; [|intros ?]
    | match goal with
      | |- sound (if ?c then _ else _) => destruct c
      | |- sound (match ?c with _ => _ end) => destruct c
      end ].

Lemma sound_GetMklOpName name : sound (GetMklOpName name).
Proof. unfold GetMklOpName. sound_tac. Qed.

Lemma sound_IsMklLayoutDependentOp op T : sound (IsMklLayoutDependentOp op T).
Proof. unfold IsMklLayoutDependentOp. sound_tac. Qed.

Lemma sound_IsMklLayoutDependentOp2 op Ti Tf :
  sound (IsMklLayoutDependentOp2 op Ti Tf).
Proof. unfold IsMklLayoutDependentOp2. sound_tac. Qed.

Lemma sound_IsMklNameChangeOp op T : sound (IsMklNameChangeOp op T).
Proof. unfold IsMklNameChangeOp. cbv zeta. sound_tac. Qed.

#[local] Hint Resolve sound_GetMklOpName sound_IsMklLayoutDependentOp
  sound_IsMklLayoutDependentOp2 sound_IsMklNameChangeOp : sound.

Lemma sound_IsMklOp op T : sound (IsMklOp op T).
Proof. unfold IsMklOp. sound_tac. Qed.

#[local] Hint Resolve sound_IsMklOp : sound.

Lemma sound_IsMklOp_node n : sound (IsMklOp_node n).
Proof. unfold IsMklOp_node. sound_tac. Qed.

Lemma sound_IsMklElementWiseOp op T : sound (IsMklElementWiseOp op T).
Proof. unfold IsMklElementWiseOp. cbv zeta. sound_tac. Qed.

#[local] Hint Resolve sound_IsMklOp_node sound_IsMklElementWiseOp : sound.

(** A fatal log is none of the three guarded effects. *)
Lemma sound_LOG_FATAL {A} msg : sound (@LOG_FATAL A msg).
Proof.
  intros w. unfold LOG_FATAL. cbn.
  pose proof (b2n_le1 (has_handle (statics w))).
  pose proof (b2n_le1 (once (statics w))).
  pose proof (b2n_le1 (cpu_bfloat16_warn_once_flag (statics w))).
  constructor; cbn; unfold count; cbn; lia.
Qed.

Lemma sound_TF_CHECK_OK st : sound (TF_CHECK_OK st).
Proof. destruct st; cbn; [apply sound_ret | apply sound_LOG_FATAL]. Qed.

Lemma sound_Check5DFormat g ndef : sound (Check5DFormat g ndef).
Proof.
  unfold Check5DFormat. cbv zeta.
  apply sound_bind; [apply sound_TF_CHECK_OK|].
  intros _. destruct (_ || _); apply sound_ret.
Qed.

Lemma sound_LogFatalSymbolNotFound s : sound (LogFatalSymbolNotFound s).
Proof. apply sound_LOG_FATAL. Qed.

Lemma sound_checked r : sound (checked r).
Proof. destruct r; cbn; [apply sound_ret | apply sound_LOG_FATAL]. Qed.

#[local] Hint Resolve sound_Check5DFormat sound_LogFatalSymbolNotFound
  sound_checked : sound.

Lemma sound_exec c : sound (exec c).
Proof. destruct c; cbn [exec]; sound_tac. Qed.

Lemma run_Halt cs : forall w, Halt w (snd (run cs w)).
Proof.
  induction cs as [|c cs IH]; intros w; cbn.
  - apply Step_Halt, Step_refl.
  - pose proof (sound_exec c w) as H.
    destruct (exec c w) as [v w'|w']; [|exact H].
    specialize (IH w'). destruct (run cs w') as [h wf]. cbn in *.
    now apply Step_then_Halt with w'.
Qed.


(** ** Values behind a guard do not change *)

Lemma Step_dso_value w w' p :
  Step w w' -> dso_value w = Some p -> dso_value w' = Some p.
Proof.
  intros [B H _ _ _ _]. unfold dso_value. rewrite B.
  destruct (PLATFORM_GOOGLE (build w)); [auto | apply H].
Qed.

Lemma Step_native_value w w' v :
  Step w w' -> native_value w = Some v -> native_value w' = Some v.
Proof.
  intros [B _ O _ _ _]. unfold native_value. rewrite B.
  destruct (ENABLE_MKL (build w)); [|auto].
  destruct (once (statics w)); [|discriminate].
  destruct (O eq_refl) as [-> ->]. auto.
Qed.

Lemma GetDsoHandle_commits w p w' :
  GetDsoHandle w = Ret p w' -> dso_value w' = Some p.
Proof.
  rewrite GetDsoHandle_eq. unfold dso_value.
  destruct (PLATFORM_GOOGLE (build w)) eqn:G.
  - intros H. injection H as <- <-. now rewrite G.
  - destruct (handle (statics w)) as [q|] eqn:E; intros H;
      injection H as <- <-; cbn; now rewrite G.
Qed.

Lemma NativeFormatEnabled_commits w v w' :
  NativeFormatEnabled w = Ret v w' -> native_value w' = Some v.
Proof.
  rewrite NativeFormatEnabled_eq. unfold native_value.
  destruct (ENABLE_MKL (build w)) eqn:G.
  - destruct (once (statics w)) eqn:E.
    + intros H. injection H as <- <-. now rewrite G, E.
    + cbn. destruct (fst (ReadBoolFromEnvVar (extern w) env_var true));
        [|discriminate].
      intros H. injection H as <- <-. cbn. now rewrite G.
  - intros H. injection H as <- <-. now rewrite G.
Qed.

(** ** Translation units *)

Lemma count_app p (a b : list Event) :
  count p (a ++ b)%list = (count p a + count p b)%nat.
Proof. unfold count. now rewrite filter_app, length_app. Qed.

Lemma count_in_app {A} (p : A -> bool) (a b : list A) :
  count_in p (a ++ b)%list = (count_in p a + count_in p b)%nat.
Proof. unfold count_in. now rewrite filter_app, length_app. Qed.

Lemma new_events_app (new old : list Event) :
  new_events old (new ++ old)%list = new.
Proof.
  unfold new_events. rewrite length_app.
  replace (List.length new + List.length old - List.length old)%nat
    with (List.length new + 0)%nat by lia.
  rewrite firstn_app_2. cbn. apply app_nil_r.
Qed.

(** Events logged under [u]: the warnings among them count for [u], and
    for no other unit. *)
Lemma count_in_tagged u v (l : list Event) :
  count_in (is_warning_of v) (List.map (pair u) l)
  = if Nat.eqb u v then count is_warning l else 0%nat.
Proof.
  unfold count_in, count, is_warning_of.
  induction l as [|ev l IH]; cbn; [now destruct (Nat.eqb u v)|].
  destruct (Nat.eqb u v); cbn.
  - destruct (is_warning ev); cbn; now rewrite IH.
  - exact IH.
Qed.

(** *** Every call only adds to the trace *)

Lemma grows_ret {A} (a : A) : grows (ret a).
Proof. intros w. now exists []. Qed.

Lemma grows_bind {A B} (m : M A) (k : A -> M B) :
  grows m -> (forall a, grows (k a)) -> grows (bind m k).
Proof.
  intros Hm Hk w. unfold bind. destruct (Hm w) as [n1 E1].
  destruct (m w) as [a w1|w1]; cbn in *; [|now exists n1].
  destruct (Hk a w1) as [n2 E2]. exists (n2 ++ n1)%list.
  now rewrite E2, E1, app_assoc.
Qed.

Lemma grows_emit ev : grows (emit ev).
Proof. intros w. now exists [ev]. Qed.

Lemma grows_ask {A} (f : Extern -> A) : grows (ask f).
Proof. intros w. now exists []. Qed.

Lemma grows_defined f : grows (defined f).
Proof. intros w. now exists []. Qed.

Lemma grows_load {A} (f : Statics -> A) : grows (load f).
Proof. intros w. now exists []. Qed.

Lemma grows_store f : grows (store f).
Proof. intros w. now exists []. Qed.

Lemma grows_set_extern e : grows (set_extern e).
Proof. intros w. now exists []. Qed.

Lemma grows_call {A} ev (f : Extern -> A) : grows (call ev f).
Proof.
  unfold call. apply grows_bind; [apply grows_emit|].
  intros _ w. now exists [].
Qed.

Lemma grows_LOG_FATAL {A} msg : grows (@LOG_FATAL A msg).
Proof. intros w. now exists [LogFatal msg]. Qed.

Create HintDb grows.
#[local] Hint Resolve grows_ret grows_emit grows_ask grows_defined grows_load
  grows_store grows_set_extern grows_call grows_LOG_FATAL : grows.

Ltac grows_tac :=
  repeat first
    [ solve [auto with grows]
    | apply grows_bind; [|intros ?]
    | match goal with
      | |- grows (if ?c then _ else _) => destruct c
      | |- grows (match ?c with _ => _ end) => destruct c
      end ].

Lemma grows_exec c : grows (exec c).
Proof.
  destruct c; cbn [exec];
    unfold checked, fmap, GetDsoHandle, LoadSymbol, NativeFormatEnabled,
      GetMklOpName, BF16UnsupportedWarning, IsMklElementWiseOp, IsMklOp_node,
      IsMklOp, IsMklLayoutDependentOp, IsMklLayoutDependentOp2,
      IsMklNameChangeOp, IsBF16SupportedByOneDNNOnThisCPU,
      BF16UnsupportedWarning, GetMklOpName, NativeFormatEnabled,
      Check5DFormat, LogFatalSymbolNotFound, orM, call_once, TF_CHECK_OK,
      LOG_ERROR;
    cbv zeta; grows_tac.
Qed.

(** *** The guards, with a warning flag per unit *)

Lemma with_flag_same w :
  with_flag (cpu_bfloat16_warn_once_flag (statics w)) w = w.
Proof. destruct w as [b e [h n o f] t]. reflexivity. Qed.

Lemma settle_log u w w' p :
  (exists new, trace w' = (new ++ trace w)%list) ->
  List.map snd (log p) = trace w ->
  List.map snd (log (settle u w w' p)) = trace w'.
Proof.
  intros [new E] H. unfold settle. cbn [log].
  rewrite E, new_events_app, map_app, map_map. cbn [snd].
  now rewrite map_id, H.
Qed.

Lemma settle_warnings u v w w' p :
  (exists new, trace w' = (new ++ trace w)%list) ->
  (count_in (is_warning_of v) (log (settle u w w' p))
   + (if Nat.eqb u v then count is_warning (trace w) else 0)
   = count_in (is_warning_of v) (log p)
     + (if Nat.eqb u v then count is_warning (trace w') else 0))%nat.
Proof.
  intros [new E]. unfold settle. cbn [log].
  rewrite E, new_events_app, count_in_app, count_in_tagged, count_app.
  destruct (Nat.eqb u v); lia.
Qed.

Lemma exec_from_Guarded u c p :
  Guarded p ->
  match exec_from u c p with
  | (Some _, p') => Guarded p'
  | (None, p') => Bounded p'
  end.
Proof.
  intros [L D E W]. unfold exec_from.
  pose proof (sound_exec c (view u p)) as S.
  pose proof (grows_exec c (view u p)) as G.
  pose proof (b2n_le1 (has_handle (statics (shared p)))) as Bh.
  pose proof (b2n_le1 (once (statics (shared p)))) as Bo.
  destruct (exec c (view u p)) as [x w'|w']; cbn [world_of] in G.
  - destruct S as [_ _ _ Sd Se Sw].
    change (has_handle (statics (view u p)))
      with (has_handle (statics (shared p))) in Sd.
    change (trace (view u p)) with (trace (shared p)) in Sd, Se, Sw.
    change (once (statics (view u p)))
      with (once (statics (shared p))) in Se.
    change (cpu_bfloat16_warn_once_flag (statics (view u p)))
      with (flags p u) in Sw.
    constructor.
    + now apply settle_log.
    + cbn [settle shared]. lia.
    + cbn [settle shared]. lia.
    + intros v. pose proof (settle_warnings u v _ _ p G) as Q.
      change (trace (view u p)) with (trace (shared p)) in Q.
      specialize (W v). cbn [settle flags].
      destruct (Nat.eqb v u) eqn:Evu.
      * apply Nat.eqb_eq in Evu. subst v. rewrite Nat.eqb_refl in Q. lia.
      * rewrite Nat.eqb_sym, Evu in Q. lia.
  - destruct S as [Sd Se Sw].
    change (has_handle (statics (view u p)))
      with (has_handle (statics (shared p))) in Sd.
    change (trace (view u p)) with (trace (shared p)) in Sd, Se, Sw.
    change (once (statics (view u p)))
      with (once (statics (shared p))) in Se.
    change (cpu_bfloat16_warn_once_flag (statics (view u p)))
      with (flags p u) in Sw.
    constructor.
    + now apply settle_log.
    + cbn [settle shared]. lia.
    + cbn [settle shared]. lia.
    + intros v. pose proof (settle_warnings u v _ _ p G) as Q.
      change (trace (view u p)) with (trace (shared p)) in Q.
      specialize (W v). pose proof (b2n_le1 (flags p v)).
      destruct (Nat.eqb u v) eqn:Euv.
      * apply Nat.eqb_eq in Euv. subst v. lia.
      * lia.
Qed.

Lemma Guarded_Bounded p : Guarded p -> Bounded p.
Proof.
  intros [L D E W].
  pose proof (b2n_le1 (has_handle (statics (shared p)))).
  pose proof (b2n_le1 (once (statics (shared p)))).
  constructor; try lia; [exact L|].
  intros v. pose proof (b2n_le1 (flags p v)). specialize (W v). lia.
Qed.

Lemma Guarded_boot b e : Guarded (boot b e).
Proof. constructor; cbn; auto; unfold count; cbn; lia. Qed.

Lemma run_units_Bounded cs :
  forall p, Guarded p -> Bounded (snd (run_units cs p)).
Proof.
  induction cs as [|[u c] cs IH]; intros p G; cbn.
  - now apply Guarded_Bounded.
  - pose proof (exec_from_Guarded u c p G) as H.
    destruct (exec_from u c p) as [[v|] p']; [|exact H].
    specialize (IH p' H). now destruct (run_units cs p').
Qed.

(** *** Values behind a process-wide guard *)

Section Committed.

(** A call [c0] whose result is committed in the world once it has
    returned, stays committed along every step, and does not depend on
    which unit's warning flag is in view. *)
Variable c0 : Call.
Variable committed : World -> option Value.
Hypothesis committed_view :
  forall f w, committed (with_flag f w) = committed w.
Hypothesis committed_step :
  forall w w' v, Step w w' -> committed w = Some v -> committed w' = Some v.
Hypothesis committed_exec :
  forall w v w', exec c0 w = Ret v w' -> committed w' = Some v.

Lemma run_units_committed cs :
  forall p v, committed (shared p) = Some v ->
  forall u v', In (u, c0, v') (fst (run_units cs p)) -> v' = v.
Proof.
  induction cs as [|[u c] cs IH]; intros p v Hc u' v' Hin; cbn in Hin;
    [contradiction|].
  unfold exec_from in Hin. pose proof (sound_exec c (view u p)) as S.
  destruct (exec c (view u p)) as [x w'|w'] eqn:E; [|contradiction].
  assert (Hc' : committed w' = Some v).
  { apply (committed_step (view u p)); [exact S|].
    unfold view. now rewrite committed_view. }
  specialize (IH (settle u (view u p) w' p) v Hc' u' v').
  destruct (run_units cs (settle u (view u p) w' p)) as [h pf]. cbn in *.
  destruct Hin as [Hin|Hin]; [|auto].
  injection Hin as -> -> ->. apply committed_exec in E. congruence.
Qed.

Lemma run_units_stable cs :
  forall p u1 u2 v1 v2,
    In (u1, c0, v1) (fst (run_units cs p)) ->
    In (u2, c0, v2) (fst (run_units cs p)) -> v1 = v2.
Proof.
  induction cs as [|[u c] cs IH]; intros p u1 u2 v1 v2 H1 H2;
    cbn in H1, H2; [contradiction|].
  unfold exec_from in H1, H2.
  destruct (exec c (view u p)) as [x w'|w'] eqn:E; [|contradiction].
  pose proof (run_units_committed cs (settle u (view u p) w' p)) as RC.
  specialize (IH (settle u (view u p) w' p) u1 u2 v1 v2).
  destruct (run_units cs (settle u (view u p) w' p)) as [h pf]. cbn in *.
  destruct H1 as [H1|H1], H2 as [H2|H2].
  - congruence.
  - injection H1 as -> -> ->. symmetry.
    apply (RC v1 (committed_exec _ _ _ E) u2 v2 H2).
  - injection H2 as -> -> ->.
    apply (RC v2 (committed_exec _ _ _ E) u1 v1 H1).
  - auto.
Qed.

End Committed.

Lemma run_units_stable_GetDsoHandle cs p u1 u2 v1 v2 :
  In (u1, CGetDsoHandle, v1) (fst (run_units cs p)) ->
  In (u2, CGetDsoHandle, v2) (fst (run_units cs p)) -> v1 = v2.
Proof.
  apply run_units_stable
    with (committed := fun w => option_map VPtr (dso_value w)).
  - reflexivity.
  - intros w w' v S H. destruct (dso_value w) as [q|] eqn:D; [|discriminate].
    now rewrite (Step_dso_value _ _ _ S D).
  - intros w v w'. cbn. unfold fmap, bind, ret.
    destruct (GetDsoHandle w) as [q w1|w1] eqn:E; [|discriminate].
    intros H. injection H as <- <-.
    now rewrite (GetDsoHandle_commits _ _ _ E).
Qed.

Lemma run_units_stable_NativeFormatEnabled cs p u1 u2 v1 v2 :
  In (u1, CNativeFormatEnabled, v1) (fst (run_units cs p)) ->
  In (u2, CNativeFormatEnabled, v2) (fst (run_units cs p)) -> v1 = v2.
Proof.
  apply run_units_stable
    with (committed := fun w => option_map VBool (native_value w)).
  - reflexivity.
  - intros w w' v S H.
    destruct (native_value w) as [q|] eqn:D; [|discriminate].
    now rewrite (Step_native_value _ _ _ S D).
  - intros w v w'. cbn. unfold fmap, bind, ret.
    destruct (NativeFormatEnabled w) as [q w1|w1] eqn:E; [|discriminate].
    intros H. injection H as <- <-.
    now rewrite (NativeFormatEnabled_commits _ _ _ E).
Qed.

(** A process whose calls all come from one unit is a [run]. *)
Lemma run_units_one_unit u cs :
  forall p,
    flags p u = cpu_bfloat16_warn_once_flag (statics (shared p)) ->
    fst (run_units (List.map (pair u) cs) p)
    = List.map (fun x => (u, fst x, snd x)) (fst (run cs (shared p))) /\
    shared (snd (run_units (List.map (pair u) cs) p))
    = snd (run cs (shared p)).
Proof.
  induction cs as [|c cs IH]; intros p F; cbn; [now split|].
  assert (V : view u p = shared p)
    by (unfold view; rewrite F; apply with_flag_same).
  unfold exec_from. rewrite V.
  destruct (exec c (shared p)) as [x w'|w'] eqn:E; [|split; reflexivity].
  assert (F' : flags (settle u (shared p) w' p) u
               = cpu_bfloat16_warn_once_flag
                   (statics (shared (settle u (shared p) w' p))))
    by (cbn; now rewrite Nat.eqb_refl).
  destruct (IH _ F') as [H1 H2]. cbn [settle shared] in H1, H2.
  destruct (run_units (List.map (pair u) cs) (settle u (shared p) w' p))
    as [h pf].
  destruct (run cs w') as [h' wf]. cbn in *. now subst.
Qed.

(** [LoadSymbol] has no guard of its own: with a handle that is not null,
    each call looks the symbol up. *)
Lemma LoadSymbol_unguarded_lookup s w h w1 :
  GetDsoHandle w = Ret h w1 -> h <> nullptr ->
  trace (world_of (LoadSymbol s w))
  = CallGetSymbolFromLibrary h s :: trace w1.
Proof.
  intros E Hh. rewrite LoadSymbol_eq, E. apply N.eqb_neq in Hh.
  now rewrite Hh.
Qed.

(** C3, as the code has it.  Over any sequence of calls into the two
    files from process start, made from any translation units, with the
    outside world changing in between, and up to an abort if there is
    one:
      - the cuBLASLt DSO is loaded at most once and the environment
        variable is read at most once in the process, and every
        [GetDsoHandle] call returns what the first returned, as does
        every [NativeFormatEnabled] call, from whatever unit;
      - the BF16 warning is logged at most once by each translation unit
        (its guard is a static of a [static inline] function), every
        event of the trace being logged under the unit whose call caused
        it;
      - the symbol look-up and the CPU feature test have no guard:
        [LoadSymbol] looks the symbol up on every call that has a
        handle, and [IsBF16SupportedByOneDNNOnThisCPU] tests the CPU
        feature on every call. *)
Theorem once_per_process_or_unit (b : Build) (e : Extern)
    (cs : list (TU * Call)) :
  let history := fst (run_units cs (boot b e)) in
  let final := snd (run_units cs (boot b e)) in
  (count is_dso_load (trace (shared final)) <= 1)%nat /\
  (count is_env_read (trace (shared final)) <= 1)%nat /\
  (forall u1 u2 v1 v2, In (u1, CGetDsoHandle, v1) history ->
                       In (u2, CGetDsoHandle, v2) history -> v1 = v2) /\
  (forall u1 u2 v1 v2, In (u1, CNativeFormatEnabled, v1) history ->
                       In (u2, CNativeFormatEnabled, v2) history ->
                       v1 = v2) /\
  (forall u, (count_in (is_warning_of u) (log final) <= 1)%nat) /\
  List.map snd (log final) = trace (shared final) /\
  (forall s w h w1, GetDsoHandle w = Ret h w1 -> h <> nullptr ->
                    trace (world_of (LoadSymbol s w))
                    = CallGetSymbolFromLibrary h s :: trace w1) /\
  (forall w, trace (world_of (IsBF16SupportedByOneDNNOnThisCPU w))
             = CallTestCPUFeature :: trace w).
Proof.
  cbv zeta.
  destruct (run_units_Bounded cs (boot b e) (Guarded_boot b e))
    as [L D E W].
  repeat split; try assumption.
  - apply run_units_stable_GetDsoHandle.
  - apply run_units_stable_NativeFormatEnabled.
  - intros s w h w1. apply LoadSymbol_unguarded_lookup.
Qed.

Lemma once_per_process_or_unit_witness :
  VBool false = VBool false.
Proof.
  apply (proj1 (proj2 (proj2 (proj2
    (once_per_process_or_unit Sample.oss_mkl Sample.ext
       [(1%nat, CNativeFormatEnabled); (1%nat, Outside Sample.ext_bare);
        (2%nat, CNativeFormatEnabled)])))) 1%nat 2%nat).
  - cbn. left. reflexivity.
  - cbn. right. right. left. reflexivity.
Defined.

(** C3, as the claim has it, fails three times over: two [LoadSymbol]
    calls for the same symbol look it up twice; the same BFLOAT16 query
    from two translation units logs the warning twice in the process; and
    two BFLOAT16 queries test the CPU feature twice. *)
Lemma not_once_per_process :
  let twice c1 c2 :=
    trace (shared (snd (run_units [c1; c2]
                          (boot Sample.oss_mkl Sample.ext)))) in
  count (is_lookup_of "cublasLtCreate")
    (twice (1%nat, CLoadSymbol "cublasLtCreate")
           (1%nat, CLoadSymbol "cublasLtCreate")) = 2%nat /\
  count is_warning
    (twice (1%nat, CIsMklOp "_MklAdd" DT_BFLOAT16)
           (2%nat, CIsMklOp "_MklAdd" DT_BFLOAT16)) = 2%nat /\
  count is_warning
    (twice (1%nat, CIsMklOp "_MklAdd" DT_BFLOAT16)
           (1%nat, CIsMklOp "_MklAdd" DT_BFLOAT16)) = 1%nat /\
  count is_cpu_test
    (twice (1%nat, CIsMklOp "_MklAdd" DT_BFLOAT16)
           (1%nat, CIsMklOp "_MklAdd" DT_BFLOAT16)) = 2%nat.
Proof. cbv zeta. repeat split; vm_compute; reflexivity. Qed.

(* ================================================================== *)
(** * Further properties *)

(** ** Tensor indices *)

Lemma GetTensorDataIndex_eq (n total_tensors : Z) :
  GetTensorDataIndex n total_tensors = Some n.
Proof. reflexivity. Qed.

Lemma GetTensorMetaDataIndex_eq (n total_tensors : Z) :
  CInt.in_int total_tensors ->
  GetTensorMetaDataIndex n total_tensors
  = Some (CInt.add n (Z.quot total_tensors 2)).
Proof.
  intros H. unfold GetTensorMetaDataIndex, GetTensorDataIndex,
    DataIndexToMetaDataIndex, CHECK_EQ. cbn.
  now rewrite CIntFacts.div2_exact.
Qed.

(** X1.  With [total_tensors] tensors, of which the first
    [total_tensors / 2] are data tensors: the data index of the [j]th is
    [j], the meta-data index of the [i]th is [i + total_tensors / 2], every
    meta-data index lies after every data index and below [total_tensors],
    and two data tensors never share a meta-data index. *)
Theorem data_and_metadata_indices_apart (total_tensors i j : Z) :
  CInt.in_int total_tensors ->
  0 <= i < total_tensors / 2 -> 0 <= j < total_tensors / 2 ->
  GetTensorDataIndex j total_tensors = Some j /\
  GetTensorMetaDataIndex i total_tensors = Some (i + total_tensors / 2) /\
  j < i + total_tensors / 2 < total_tensors /\
  GetTensorMetaDataIndex i total_tensors
    <> GetTensorDataIndex j total_tensors /\
  (GetTensorMetaDataIndex i total_tensors
     = GetTensorMetaDataIndex j total_tensors -> i = j).
Proof.
  intros Ht Hi Hj.
  assert (Hpos : 0 < total_tensors).
  { destruct (Z_lt_le_dec 0 total_tensors) as [|Hle]; [assumption|].
    assert (total_tensors / 2 <= 0) by (apply Z.div_le_upper_bound; lia).
    lia. }
  assert (Hq : Z.quot total_tensors 2 = total_tensors / 2)
    by (apply Z.quot_div_nonneg; lia).
  assert (Hh : 2 * (total_tensors / 2) <= total_tensors)
    by (apply Z.mul_div_le; lia).
  assert (Hm : forall k, 0 <= k < total_tensors / 2 ->
             GetTensorMetaDataIndex k total_tensors
             = Some (k + total_tensors / 2)).
  { intros k Hk. rewrite GetTensorMetaDataIndex_eq by exact Ht.
    rewrite Hq, CIntFacts.add_exact; [reflexivity|].
    unfold CInt.in_int, CInt.INT_MIN, CInt.INT_MAX in *. lia. }
  rewrite (Hm i Hi), (Hm j Hj), GetTensorDataIndex_eq.
  repeat split; try lia.
  - intros H. injection H as H. lia.
  - intros H. injection H as H. lia.
Qed.

Lemma data_and_metadata_indices_apart_witness :
  GetTensorMetaDataIndex 2 6 <> GetTensorDataIndex 1 6.
Proof.
  apply (data_and_metadata_indices_apart 6 2 1).
  - unfold CInt.in_int, CInt.INT_MIN, CInt.INT_MAX; lia.
  - cbn; lia.
  - cbn; lia.
Defined.

(** X2.  The meta-data index of a tensor coincides with its data index
    exactly for the degenerate counts -1, 0 and 1, where
    [total_tensors / 2] truncates to 0. *)
Theorem metadata_index_is_data_index_iff (n total_tensors : Z) :
  CInt.in_int n -> CInt.in_int total_tensors ->
  (GetTensorMetaDataIndex n total_tensors
     = GetTensorDataIndex n total_tensors
   <-> -2 < total_tensors < 2).
Proof.
  intros Hn Ht. rewrite GetTensorMetaDataIndex_eq, GetTensorDataIndex_eq
    by exact Ht.
  pose proof (CIntFacts.quot2_in_int _ Ht) as Hq.
  pose proof (Z.quot_small_iff total_tensors 2 ltac:(lia)) as Hs.
  unfold CInt.in_int, CInt.INT_MIN, CInt.INT_MAX in *.
  split.
  - intros H. injection H as H. unfold CInt.add, CInt.wrap in H.
    set (q := Z.quot total_tensors 2) in *.
    pose proof (Z.div_mod (n + q + 2 ^ 31) (2 ^ 32) ltac:(lia)) as D.
    assert (q = 0) by lia.
    apply Hs in H0. lia.
  - intros H. assert (E : Z.quot total_tensors 2 = 0) by (apply Hs; lia).
    rewrite E. unfold CInt.add. rewrite Z.add_0_r. f_equal.
    apply CIntFacts.wrap_id.
    unfold CInt.in_int, CInt.INT_MIN, CInt.INT_MAX. lia.
Qed.

Lemma metadata_index_is_data_index_iff_witness :
  GetTensorMetaDataIndex 5 1 = GetTensorDataIndex 5 1.
Proof.
  apply (metadata_index_is_data_index_iff 5 1).
  - unfold CInt.in_int, CInt.INT_MIN, CInt.INT_MAX; lia.
  - unfold CInt.in_int, CInt.INT_MIN, CInt.INT_MAX; lia.
  - lia.
Defined.

(** ** Control edges *)

Lemma DoesControlEdgeExist_loop_iff (edges : list Edge) (dst : ptr) :
  DoesControlEdgeExist_loop edges dst = true <->
  exists edge, In edge edges /\ IsControlEdge edge = true /\
               edge_dst edge = dst.
Proof.
  induction edges as [|e rest IH]; cbn.
  - split; [discriminate | intros (x & [] & _)].
  - destruct (IsControlEdge e && N.eqb (edge_dst e) dst) eqn:E.
    + apply andb_true_iff in E as [Ec Ed]. apply N.eqb_eq in Ed.
      split; [intros _; exists e; auto | reflexivity].
    + rewrite IH. split.
      * intros (x & Hx & Hc & Hd). exists x. auto.
      * intros (x & [->|Hx] & Hc & Hd); [|exists x; auto].
        rewrite Hc in E. apply N.eqb_eq in Hd. rewrite Hd in E.
        discriminate.
Qed.

(** X3.  [DoesControlEdgeExist(src, dst)] is true exactly when some
    out-edge of [src] is a control edge that leads to [dst]; the answer
    does not depend on the order in which the edge set is walked. *)
Theorem DoesControlEdgeExist_iff (out_edges out_edges' : ptr -> list Edge)
    (src dst : ptr) :
  (DoesControlEdgeExist out_edges src dst = true <->
   exists edge, In edge (out_edges src) /\ IsControlEdge edge = true /\
                edge_dst edge = dst) /\
  (Permutation (out_edges src) (out_edges' src) ->
   DoesControlEdgeExist out_edges src dst
   = DoesControlEdgeExist out_edges' src dst).
Proof.
  unfold DoesControlEdgeExist. split; [apply DoesControlEdgeExist_loop_iff|].
  intros P.
  destruct (DoesControlEdgeExist_loop (out_edges src) dst) eqn:A;
    destruct (DoesControlEdgeExist_loop (out_edges' src) dst) eqn:B;
    try reflexivity; exfalso.
  - apply DoesControlEdgeExist_loop_iff in A as (x & Hx & Hc & Hd).
    assert (DoesControlEdgeExist_loop (out_edges' src) dst = true).
    { apply DoesControlEdgeExist_loop_iff. exists x.
      split; [now apply (Permutation_in _ P) | auto]. }
    congruence.
  - apply DoesControlEdgeExist_loop_iff in B as (x & Hx & Hc & Hd).
    assert (DoesControlEdgeExist_loop (out_edges src) dst = true).
    { apply DoesControlEdgeExist_loop_iff. exists x.
      split; [now apply (Permutation_in _ (Permutation_sym P)) | auto]. }
    congruence.
Qed.

Lemma DoesControlEdgeExist_iff_witness :
  DoesControlEdgeExist
    (fun _ => [mkEdge 7%N false; mkEdge 7%N true]) 1%N 7%N
  = DoesControlEdgeExist
      (fun _ => [mkEdge 7%N true; mkEdge 7%N false]) 1%N 7%N.
Proof.
  apply (proj2 (DoesControlEdgeExist_iff
                  (fun _ => [mkEdge 7%N false; mkEdge 7%N true])
                  (fun _ => [mkEdge 7%N true; mkEdge 7%N false]) 1%N 7%N)).
  apply perm_swap.
Defined.

(** ** [Check5DFormat] *)

(** X4.  [Check5DFormat] aborts the process when the node has no readable
    [data_format] attribute, leaving only the fatal log; otherwise it
    returns, without any effect, whether the attribute is ["NCDHW"] or
    ["NDHWC"]. *)
Theorem Check5DFormat_spec
    (GetNodeAttr_string : NodeDef -> string -> string -> Status * string)
    (ndef : NodeDef) (w : World) :
  (forall msg data_format,
     GetNodeAttr_string ndef "data_format" "" = (Error msg, data_format) ->
     exists w', Check5DFormat GetNodeAttr_string ndef w = Abort w' /\
                trace w' = LogFatal msg :: trace w) /\
  (forall data_format,
     GetNodeAttr_string ndef "data_format" "" = (OK, data_format) ->
     exists b, Check5DFormat GetNodeAttr_string ndef w = Ret b w /\
               (b = true <->
                data_format = "NCDHW" \/ data_format = "NDHWC")).
Proof.
  unfold Check5DFormat. split.
  - intros msg df H. rewrite H. cbn. eexists. split; reflexivity.
  - intros df H. rewrite H. cbn. unfold bind, ret.
    destruct (compare_eq0 df "NCDHW") eqn:A; cbn.
    + exists true. split; [reflexivity|].
      apply compare_eq0_iff in A. tauto.
    + destruct (compare_eq0 df "NDHWC") eqn:B.
      * exists true. split; [reflexivity|].
        apply compare_eq0_iff in B. tauto.
      * exists false. split; [reflexivity|]. split; [discriminate|].
        intros [E|E]; apply compare_eq0_iff in E; congruence.
Qed.

Lemma Check5DFormat_spec_witness :
  exists b,
    Check5DFormat MoreSamples.node_attr_string MoreSamples.conv3d_def
      Sample.w0 = Ret b Sample.w0 /\
    (b = true <-> "NDHWC" = "NCDHW" \/ "NDHWC" = "NDHWC").
Proof.
  apply (proj2 (Check5DFormat_spec MoreSamples.node_attr_string
                  MoreSamples.conv3d_def Sample.w0) "NDHWC").
  reflexivity.
Defined.

(** ** Op names *)

Lemma mkl_op_name_spec_inj (native : bool) (a b : string) :
  mkl_op_name_spec native a = mkl_op_name_spec native b -> a = b.
Proof.
  unfold mkl_op_name_spec. destruct native.
  - destruct (mem a native_exceptions) eqn:A,
             (mem b native_exceptions) eqn:B; cbn; intros H.
    + now injection H.
    + apply mem_In in A. injection H as H. subst a. cbn in A.
      repeat (destruct A as [A|A]; [discriminate A|]). contradiction.
    + apply mem_In in B. injection H as H. subst b. cbn in B.
      repeat (destruct B as [B|B]; [discriminate B|]). contradiction.
    + now injection H.
  - cbn. intros H. now injection H.
Qed.

(** X5.  The MKL name of an op determines the op: [GetMklNativeOpName] is
    injective, and within one world [GetMklOpName] never returns the same
    name for two different ops. *)
Theorem GetMklOpName_injective (a b : string) (w : World) :
  (GetMklNativeOpName a = GetMklNativeOpName b -> a = b) /\
  (forall s, value_of (GetMklOpName a w) = Some s ->
             value_of (GetMklOpName b w) = Some s -> a = b).
Proof.
  split.
  - rewrite !GetMklNativeOpName_spec. apply mkl_op_name_spec_inj.
  - intros s. rewrite !GetMklOpName_value.
    destruct (value_of (NativeFormatEnabled w)) as [v|]; [|discriminate].
    cbn. intros H1 H2. apply (mkl_op_name_spec_inj v). congruence.
Qed.

Lemma GetMklOpName_injective_witness : "MatMul" = "MatMul".
Proof.
  apply (proj1 (GetMklOpName_injective "MatMul" "MatMul" Sample.w0)).
  reflexivity.
Defined.

(** ** Which types an op is an MKL op for *)

Lemma IsMklLayoutDependentOp_value op T w :
  value_of (IsMklLayoutDependentOp op T w)
  = Some (let kernel := KernelsRegisteredForOp (extern w) op in
          if find_ne_npos kernel "label='QuantizedMklOp'" then
            DataType_eqb T DT_QUINT8 || DataType_eqb T DT_QINT8
            || DataType_eqb T DT_QINT32
          else if find_ne_npos kernel "label='MklLayoutDependentOp'" then
            DataType_eqb T DT_FLOAT
            || DataType_eqb T DT_BFLOAT16
               && TestCPUFeature_AVX512F (extern w)
          else false).
Proof.
  unfold IsMklLayoutDependentOp, IsBF16SupportedByOneDNNOnThisCPU,
    BF16UnsupportedWarning. m_unfold. cbn.
  change kMklQuantizedOpLabelPattern with "label='QuantizedMklOp'".
  change kMklLayoutDependentOpLabelPattern
    with "label='MklLayoutDependentOp'".
  m_cases; reflexivity.
Qed.

Lemma IsMklNameChangeOp_value op T w :
  value_of (IsMklNameChangeOp op T w)
  = Some (find_ne_npos (KernelsRegisteredForOp (extern w) op)
            (name_change_pattern T)
          && (DataType_eqb T DT_COMPLEX128 || DataType_eqb T DT_COMPLEX64
              || DataType_eqb T DT_DOUBLE || DataType_eqb T DT_FLOAT
              || DataType_eqb T DT_BFLOAT16
                 && TestCPUFeature_AVX512F (extern w))).
Proof.
  unfold IsMklNameChangeOp, IsBF16SupportedByOneDNNOnThisCPU,
    BF16UnsupportedWarning. m_unfold. cbv zeta.
  change (kMklNameChangeOpLabelPattern ++ ";" ++ " T in [")
    with "label='MklNameChangeOp'; T in [".
  change (("label='MklNameChangeOp'; T in [") ++ DataType_Name T ++ "]")
    with (name_change_pattern T).
  destruct (find_ne_npos _ (name_change_pattern T)); [|reflexivity].
  cbn [andb].
  destruct (DataType_eqb T DT_COMPLEX128 || DataType_eqb T DT_COMPLEX64
            || DataType_eqb T DT_DOUBLE || DataType_eqb T DT_FLOAT) eqn:A;
    cbn [negb orb]; [reflexivity|].
  destruct (DataType_eqb T DT_BFLOAT16); cbn; [|reflexivity].
  m_cases; reflexivity.
Qed.

Lemma IsMklOp_value op T w :
  exists x y,
    value_of (IsMklLayoutDependentOp op T w) = Some x /\
    value_of (IsMklNameChangeOp op T w) = Some y /\
    value_of (IsMklOp op T w) = Some (x || y).
Proof.
  apply orM_value;
    [apply Query_IsMklLayoutDependentOp | apply Query_IsMklNameChangeOp].
Qed.

Lemma DataType_eqb_refl T : DataType_eqb T T = true.
Proof. now apply DataType_eqb_eq. Qed.

Lemma DataType_eqb_neq a b : a <> b -> DataType_eqb a b = false.
Proof.
  intros H. destruct (DataType_eqb a b) eqn:E; [|reflexivity].
  now apply DataType_eqb_eq in E.
Qed.

(** X6.  [IsMklOp(op_name, T)] is true only for the eight types FLOAT,
    BFLOAT16, QUINT8, QINT8, QINT32, COMPLEX128, COMPLEX64 and DOUBLE,
    whatever kernels are registered for the op. *)
Theorem IsMklOp_types (op_name : string) (T : DataType) (w : World) :
  value_of (IsMklOp op_name T w) = Some true ->
  In T [DT_FLOAT; DT_BFLOAT16; DT_QUINT8; DT_QINT8; DT_QINT32;
        DT_COMPLEX128; DT_COMPLEX64; DT_DOUBLE].
Proof.
  destruct (IsMklOp_value op_name T w) as (x & y & Hx & Hy & ->).
  rewrite IsMklLayoutDependentOp_value in Hx.
  rewrite IsMklNameChangeOp_value in Hy.
  injection Hx as <-. injection Hy as <-. cbv zeta.
  destruct (find_ne_npos (KernelsRegisteredForOp (extern w) op_name)
              "label='QuantizedMklOp'"),
           (find_ne_npos (KernelsRegisteredForOp (extern w) op_name)
              "label='MklLayoutDependentOp'"),
           (find_ne_npos (KernelsRegisteredForOp (extern w) op_name)
              (name_change_pattern T)),
           (TestCPUFeature_AVX512F (extern w));
    destruct T; cbn; intros H; try discriminate H; tauto.
Qed.

Lemma IsMklOp_types_witness :
  In DT_FLOAT [DT_FLOAT; DT_BFLOAT16; DT_QUINT8; DT_QINT8; DT_QINT32;
               DT_COMPLEX128; DT_COMPLEX64; DT_DOUBLE].
Proof.
  apply (IsMklOp_types "_MklMatMul" DT_FLOAT Sample.w0). reflexivity.
Defined.

(** X7.  On a CPU without AVX512F no op is an MKL op for BFLOAT16:
    [IsMklOp(op_name, DT_BFLOAT16)] returns false whatever is registered. *)
Theorem IsMklOp_bfloat16_needs_avx512 (op_name : string) (w : World) :
  TestCPUFeature_AVX512F (extern w) = false ->
  value_of (IsMklOp op_name DT_BFLOAT16 w) = Some false.
Proof.
  intros H.
  destruct (IsMklOp_value op_name DT_BFLOAT16 w) as (x & y & Hx & Hy & ->).
  rewrite IsMklLayoutDependentOp_value in Hx.
  rewrite IsMklNameChangeOp_value in Hy.
  injection Hx as <-. injection Hy as <-. cbv zeta. rewrite H.
  destruct (find_ne_npos (KernelsRegisteredForOp (extern w) op_name)
              "label='QuantizedMklOp'"),
           (find_ne_npos (KernelsRegisteredForOp (extern w) op_name)
              "label='MklLayoutDependentOp'"),
           (find_ne_npos (KernelsRegisteredForOp (extern w) op_name)
              (name_change_pattern DT_BFLOAT16)); reflexivity.
Qed.

Lemma IsMklOp_bfloat16_needs_avx512_witness :
  value_of (IsMklOp "_MklAdd" DT_BFLOAT16 Sample.w0) = Some false.
Proof. apply IsMklOp_bfloat16_needs_avx512. reflexivity. Defined.

(** X8.  The quantized label wins over the layout-dependent one: for an op
    whose kernel description carries the quantized-op label,
    [IsMklLayoutDependentOp(op_name, T)] returns, without any effect,
    whether [T] is QUINT8, QINT8 or QINT32, also when the description
    carries the layout-dependent label as well. *)
Theorem IsMklLayoutDependentOp_quantized_first (op_name : string)
    (T : DataType) (w : World) :
  (exists pre post,
     KernelsRegisteredForOp (extern w) op_name
     = pre ++ "label='QuantizedMklOp'" ++ post) ->
  exists b,
    IsMklLayoutDependentOp op_name T w = Ret b w /\
    (b = true <-> T = DT_QUINT8 \/ T = DT_QINT8 \/ T = DT_QINT32).
Proof.
  intros H. apply find_ne_npos_iff in H.
  unfold IsMklLayoutDependentOp. m_unfold.
  change kMklQuantizedOpLabelPattern with "label='QuantizedMklOp'".
  rewrite H. eexists. split; [reflexivity|].
  rewrite !orb_true_iff, !DataType_eqb_eq. tauto.
Qed.

Lemma IsMklLayoutDependentOp_quantized_first_witness :
  exists b,
    IsMklLayoutDependentOp "_MklQuantizedConv2D" DT_FLOAT Sample.w0
    = Ret b Sample.w0 /\
    (b = true <->
     DT_FLOAT = DT_QUINT8 \/ DT_FLOAT = DT_QINT8 \/ DT_FLOAT = DT_QINT32).
Proof.
  apply IsMklLayoutDependentOp_quantized_first.
  exists "device='CPU'; ", "; Tinput in [DT_QUINT8]". reflexivity.
Defined.

(** X9.  The two overloads of [IsMklLayoutDependentOp] agree on the
    filter type: when the overload with input and filter types returns
    true, so does the one-type overload at the filter type, and so does
    [IsMklOp]. *)
Theorem IsMklLayoutDependentOp_overloads_agree (op_name : string)
    (Tinput Tfilter : DataType) (w : World) :
  value_of (IsMklLayoutDependentOp2 op_name Tinput Tfilter w) = Some true ->
  value_of (IsMklLayoutDependentOp op_name Tfilter w) = Some true /\
  value_of (IsMklOp op_name Tfilter w) = Some true.
Proof.
  intros H.
  assert (L : value_of (IsMklLayoutDependentOp op_name Tfilter w)
              = Some true).
  { rewrite IsMklLayoutDependentOp_value. cbv zeta. revert H.
    unfold IsMklLayoutDependentOp2. m_unfold.
    change kMklQuantizedOpLabelPattern with "label='QuantizedMklOp'".
    destruct (find_ne_npos (KernelsRegisteredForOp (extern w) op_name)
              "label='QuantizedMklOp'"); cbn;
      [|discriminate].
    intros H. injection H as H. apply DataType_eqb_eq in H. now subst. }
  split; [exact L|].
  destruct (IsMklOp_value op_name Tfilter w) as (x & y & Hx & Hy & ->).
  rewrite L in Hx. now injection Hx as <-.
Qed.

Lemma IsMklLayoutDependentOp_overloads_agree_witness :
  value_of (IsMklOp "_MklQuantizedConv2D" DT_QINT8 Sample.w0) = Some true.
Proof.
  apply (IsMklLayoutDependentOp_overloads_agree "_MklQuantizedConv2D"
           DT_QUINT8 DT_QINT8 Sample.w0).
  reflexivity.
Defined.

(** X10.  Only a BFLOAT16 query can have an effect: for every other type
    [IsMklOp(op_name, T)] returns and leaves the world exactly as it was
    (nothing logged, no flag set, no CPU feature tested). *)
Theorem IsMklOp_effect_free (op_name : string) (T : DataType) (w : World) :
  T <> DT_BFLOAT16 -> exists b, IsMklOp op_name T w = Ret b w.
Proof.
  intros H. apply DataType_eqb_neq in H.
  unfold IsMklOp, IsMklLayoutDependentOp, IsMklNameChangeOp. m_unfold.
  cbv zeta. rewrite H. m_cases; eexists; reflexivity.
Qed.

Lemma IsMklOp_effect_free_witness :
  exists b, IsMklOp "_MklMatMul" DT_FLOAT Sample.w0 = Ret b Sample.w0.
Proof. apply IsMklOp_effect_free. discriminate. Defined.

(** X11.  [IsMklNameChangeOp(op_name, T)] is true exactly when the kernel
    description of the op contains the name-change label followed by
    ["; T in [<name of T>]"], and [T] is COMPLEX128, COMPLEX64, DOUBLE or
    FLOAT, or BFLOAT16 on a CPU with AVX512F.  A registration for any
    other type is not enough. *)
Theorem IsMklNameChangeOp_iff (op_name : string) (T : DataType) (w : World) :
  value_of (IsMklNameChangeOp op_name T w) = Some true <->
  (exists pre post,
     KernelsRegisteredForOp (extern w) op_name
     = pre ++ ("label='MklNameChangeOp'; T in [" ++ DataType_Name T ++ "]")
           ++ post) /\
  (In T [DT_COMPLEX128; DT_COMPLEX64; DT_DOUBLE; DT_FLOAT] \/
   T = DT_BFLOAT16 /\ TestCPUFeature_AVX512F (extern w) = true).
Proof.
  rewrite IsMklNameChangeOp_value.
  rewrite <- (find_ne_npos_iff _ (name_change_pattern T)).
  destruct (find_ne_npos (KernelsRegisteredForOp (extern w) op_name)
              (name_change_pattern T)); cbn [andb].
  - destruct (TestCPUFeature_AVX512F (extern w)); destruct T; cbn;
      split; intros H; try discriminate H; try reflexivity;
      try (split; [reflexivity | tauto]);
      exfalso; destruct H as [_ [H|[H H']]];
      try discriminate;
      repeat (destruct H as [H|H]; [discriminate H|]); contradiction.
  - split; [discriminate | intros [H _]; discriminate].
Qed.

(** X12.  Matching the type by substring is exact: against a kernel line
    registered for [T'], [IsMklNameChangeOp(op_name, T)] can only be true
    for [T = T'] (the closing bracket keeps [DT_FLOAT] from matching
    [DT_FLOAT_REF], and the like). *)
Theorem IsMklNameChangeOp_type_exact (op_name : string) (T T' : DataType)
    (w : World) :
  KernelsRegisteredForOp (extern w) op_name
  = "device='CPU'; label='MklNameChangeOp'; T in [" ++ DataType_Name T'
    ++ "]" ->
  value_of (IsMklNameChangeOp op_name T w) = Some true -> T = T'.
Proof.
  intros K. rewrite IsMklNameChangeOp_value, K.
  destruct (TestCPUFeature_AVX512F (extern w));
    destruct T, T'; intros H;
    first [reflexivity | vm_compute in H; discriminate H].
Qed.

Lemma IsMklNameChangeOp_type_exact_witness : DT_FLOAT = DT_FLOAT.
Proof.
  apply (IsMklNameChangeOp_type_exact "MatMul" DT_FLOAT DT_FLOAT
           (fresh Sample.oss_mkl MoreSamples.ext_float_only));
    reflexivity.
Defined.

(** X13.  [IsMklElementWiseOp] asks [IsMklOp] first.  When that says no,
    it returns false in the world [IsMklOp] left and the format mode is
    not read; it can abort the process only after [IsMklOp] has said yes,
    and then it is [NativeFormatEnabled] that aborts. *)
Theorem IsMklElementWiseOp_after_IsMklOp (op_name : string) (T : DataType)
    (w : World) :
  (forall w1, IsMklOp op_name T w = Ret false w1 ->
     IsMklElementWiseOp op_name T w = Ret false w1 /\
     once (statics w1) = once (statics w)) /\
  (forall w', IsMklElementWiseOp op_name T w = Abort w' ->
     exists w1, IsMklOp op_name T w = Ret true w1 /\
                NativeFormatEnabled w1 = Abort w').
Proof.
  destruct (IsMklElementWiseOp_run op_name T w) as (b & w1 & E & Q & R).
  split.
  - intros w1' H. rewrite E in H. injection H as -> <-.
    split; [exact R | now destruct Q].
  - intros w' H. rewrite R in H. destruct b; [|discriminate].
    exists w1. split; [exact E|].
    destruct (NativeFormatEnabled w1); [discriminate | congruence].
Qed.

Lemma IsMklElementWiseOp_after_IsMklOp_witness :
  IsMklElementWiseOp "Conv2D" DT_FLOAT Sample.w0 = Ret false Sample.w0.
Proof.
  apply (proj1 (IsMklElementWiseOp_after_IsMklOp "Conv2D" DT_FLOAT
                  Sample.w0) Sample.w0).
  reflexivity.
Defined.

(** ** Once the format mode is fixed *)

Lemma NativeFormatEnabled_committed w v :
  native_value w = Some v -> NativeFormatEnabled w = Ret v w.
Proof.
  unfold native_value. rewrite NativeFormatEnabled_eq.
  destruct (ENABLE_MKL (build w)); [|congruence].
  destruct (once (statics w)); [congruence | discriminate].
Qed.

Lemma Quiet_native_value w w1 :
  Quiet w w1 -> native_value w1 = native_value w.
Proof. intros [B _ _ O N]. unfold native_value. now rewrite B, O, N. Qed.

Lemma Query_returns (m : M bool) w :
  Query m -> exists b w', m w = Ret b w'.
Proof. intros [H _]. destruct (H w) as (b & w' & E & _). eauto. Qed.

Lemma exec_returns c w v :
  native_value w = Some v -> fatal_call c = false ->
  exists x w', exec c w = Ret x w'.
Proof.
  intros N F. destruct c; cbn [exec]; unfold fmap, bind, ret;
    try discriminate F.
  - destruct (GetDsoHandle_total w) as (h & w1 & -> & _). eauto.
  - rewrite LoadSymbol_eq.
    destruct (GetDsoHandle_total w) as (h & w1 & -> & _).
    destruct (negb (N.eqb h nullptr)); eauto.
  - rewrite (NativeFormatEnabled_committed _ _ N). eauto.
  - rewrite GetMklOpName_eq. unfold fmap, bind, ret.
    rewrite (NativeFormatEnabled_committed _ _ N). eauto.
  - unfold BF16UnsupportedWarning. m_unfold. cbn.
    destruct (cpu_bfloat16_warn_once_flag (statics w)); cbn; eauto.
  - destruct (Query_returns _ w (Query_IsMklLayoutDependentOp op_name T))
      as (b & w' & ->). eauto.
  - unfold IsMklLayoutDependentOp2. m_unfold. m_cases; eauto.
  - destruct (Query_returns _ w (Query_IsMklNameChangeOp op_name T))
      as (b & w' & ->). eauto.
  - destruct (Query_returns _ w (Query_IsMklOp op_name T))
      as (b & w' & ->). eauto.
  - unfold IsMklOp_node. m_unfold.
    destruct (GetNodeAttr (extern w) (def n) "T") as [T|msg]; [|eauto].
    destruct (Query_returns _ w (Query_IsMklOp (type_string n) T))
      as (b & w' & ->). eauto.
  - destruct (IsMklElementWiseOp_run op_name T w) as (b & w1 & _ & Q & ->).
    destruct b; [|eauto].
    rewrite (NativeFormatEnabled_committed w1 v); [eauto|].
    now rewrite (Quiet_native_value _ _ Q).
  - cbn. eauto.
  - eexists. eexists. reflexivity.
  - eexists. eexists. reflexivity.
  - eexists. eexists. reflexivity.
  - eauto.
  - cbn in F. unfold Check5DFormat. cbv zeta. unfold bind.
    destruct (fst (GetNodeAttr_string ndef "data_format" ""));
      [|discriminate F].
    cbn. destruct (_ || _); cbn; eauto.
  - eauto.
  - eauto.
  - unfold IsBF16SupportedByOneDNNOnThisCPU. m_unfold. cbn. eauto.
  - eauto.
Qed.

Lemma fatal_call_aborts c w :
  fatal_call c = true -> exists w', exec c w = Abort w'.
Proof.
  destruct c; cbn [fatal_call]; try discriminate.
  - intros F. cbn [exec]. unfold Check5DFormat, fmap. cbv zeta.
    unfold bind.
    destruct (fst (GetNodeAttr_string ndef "data_format" ""));
      [discriminate F|].
    cbn. eauto.
  - intros _. cbn. eauto.
Qed.

(** X14.  Once the format mode is fixed (a [NativeFormatEnabled] call has
    returned, or the build has no [ENABLE_MKL]), the only calls into the
    two files that still abort the process are [Check5DFormat] on a node
    whose [data_format] cannot be read and [LogFatalSymbolNotFound]: these
    abort in any world, and a run without them completes every call.
    Every [GetMklOpName] of the run names ops by the fixed mode, whatever
    happens to the environment in between. *)
Theorem format_mode_is_final (w : World) (v : bool) (cs : list Call) :
  native_value w = Some v ->
  (Forall (fun c => fatal_call c = false) cs ->
   List.length (fst (run cs w)) = List.length cs) /\
  (forall name s, In (CGetMklOpName name, s) (fst (run cs w)) ->
                  s = VString (mkl_op_name_spec v name)) /\
  (forall c w0, fatal_call c = true -> exists w', exec c w0 = Abort w').
Proof.
  intros N. split; [|split]; [| |intros c w0; apply fatal_call_aborts].
  - revert w N. induction cs as [|c cs IH]; intros w N F; cbn;
      [reflexivity|].
    inversion F as [|? ? Fc Fcs]; subst.
    destruct (exec_returns c w v N Fc) as (x & w' & E). rewrite E.
    pose proof (sound_exec c w) as S. rewrite E in S.
    pose proof (Step_native_value _ _ _ S N) as N'.
    specialize (IH w' N' Fcs). destruct (run cs w') as [h wf].
    cbn in *. now rewrite IH.
  - revert w N. induction cs as [|c cs IH]; intros w N name s Hin;
      cbn in Hin; [contradiction|].
    pose proof (sound_exec c w) as S.
    destruct (exec c w) as [x w'|w'] eqn:E; [|contradiction].
    pose proof (Step_native_value _ _ _ S N) as N'.
    specialize (IH w' N' name s). destruct (run cs w') as [h wf].
    cbn in *. destruct Hin as [H|H]; [|auto].
    injection H as -> ->. cbn in E. unfold fmap, bind, ret in E.
    rewrite GetMklOpName_eq in E. unfold fmap, bind, ret in E.
    rewrite (NativeFormatEnabled_committed _ _ N) in E. congruence.
Qed.

Lemma format_mode_is_final_witness :
  List.length
    (fst (run [Outside Sample.ext_bare; CGetMklOpName "Add";
               CCheck5DFormat MoreSamples.node_attr_string
                 MoreSamples.conv3d_def]
            (snd (run [CNativeFormatEnabled] Sample.w0))))
  = 3%nat.
Proof.
  apply (proj1 (format_mode_is_final
                  (snd (run [CNativeFormatEnabled] Sample.w0)) false
                  [Outside Sample.ext_bare; CGetMklOpName "Add";
                   CCheck5DFormat MoreSamples.node_attr_string
                     MoreSamples.conv3d_def]
                  eq_refl)).
  repeat constructor.
Defined.

(** ** A DSO that did not load *)

Lemma GetDsoHandle_committed w p :
  dso_value w = Some p -> GetDsoHandle w = Ret p w.
Proof.
  unfold dso_value. rewrite GetDsoHandle_eq.
  destruct (PLATFORM_GOOGLE (build w)); [congruence|].
  now intros ->.
Qed.

Lemma LoadSymbol_without_handle w s :
  dso_value w = Some nullptr -> LoadSymbol s w = Ret nullptr w.
Proof.
  intros H. now rewrite LoadSymbol_eq, (GetDsoHandle_committed _ _ H).
Qed.

Lemma run_without_handle cs :
  forall w, dso_value w = Some nullptr ->
  forall c v, In (c, v) (fst (run cs w)) ->
              (c = CGetDsoHandle \/ exists s, c = CLoadSymbol s) ->
              v = VPtr nullptr.
Proof.
  induction cs as [|c cs IH]; intros w D c0 v Hin Hc; cbn in Hin;
    [contradiction|].
  pose proof (sound_exec c w) as S.
  destruct (exec c w) as [x w'|w'] eqn:E; [|contradiction].
  pose proof (Step_dso_value _ _ _ S D) as D'.
  specialize (IH w' D' c0 v). destruct (run cs w') as [h wf]. cbn in *.
  destruct Hin as [H|H]; [|auto].
  injection H as -> ->. destruct Hc as [->|[s ->]]; cbn in E;
    unfold fmap, bind, ret in E.
  - rewrite (GetDsoHandle_committed _ _ D) in E. congruence.
  - rewrite (LoadSymbol_without_handle _ _ D) in E. congruence.
Qed.

(** X15.  A DSO that is not there stays not there: on the Google platform,
    or when the first attempt to load cuBLASLt fails, every [GetDsoHandle]
    and every [LoadSymbol] of the process returns null, also after the
    library has become loadable; the load is never tried again. *)
Theorem failed_load_is_final (b : Build) (e : Extern) (s0 : string)
    (cs : list Call) :
  PLATFORM_GOOGLE b = true \/
  (exists msg, GetCublasLtDsoHandle e = StatusOf msg) ->
  forall c v,
    In (c, v) (fst (run (CLoadSymbol s0 :: cs) (fresh b e))) ->
    c = CGetDsoHandle \/ (exists s, c = CLoadSymbol s) ->
    v = VPtr nullptr.
Proof.
  intros H c v Hin Hc.
  assert (E : exists w1, LoadSymbol s0 (fresh b e) = Ret nullptr w1 /\
                         dso_value w1 = Some nullptr).
  { rewrite LoadSymbol_eq, GetDsoHandle_eq. cbn.
    destruct (PLATFORM_GOOGLE b) eqn:G.
    - eexists. split; [reflexivity|]. unfold dso_value. cbn. now rewrite G.
    - destruct H as [H|[msg H]]; [discriminate|].
      unfold loaded_handle. rewrite H. cbn. eexists.
      split; [reflexivity|]. unfold dso_value. cbn. now rewrite G. }
  destruct E as (w1 & E & D). cbn in Hin. unfold fmap, bind, ret in Hin.
  rewrite E in Hin.
  pose proof (run_without_handle cs w1 D c v) as R.
  destruct (run cs w1) as [h wf]. cbn in *.
  destruct Hin as [Hin|Hin]; [|auto]. now injection Hin as _ <-.
Qed.

Lemma failed_load_is_final_witness : VPtr nullptr = VPtr nullptr.
Proof.
  apply (failed_load_is_final Sample.oss_mkl Sample.ext_bare
           "cublasLtCreate" [Outside Sample.ext; CLoadSymbol "cublasLtCreate"]
           (or_intror (ex_intro _ "libcublasLt.so: cannot open" eq_refl))
           (CLoadSymbol "cublasLtCreate") (VPtr nullptr)).
  - cbn. right. right. left. reflexivity.
  - right. now exists "cublasLtCreate".
Defined.

(** ** The BF16 fall-back *)

(** X16.  An op with layout-dependent kernels, queried for BFLOAT16 on a
    CPU without AVX512F: [IsMklLayoutDependentOp] returns false and the
    warning flag is set afterwards; the warning is logged by this call
    exactly when the flag was clear before. *)
Theorem bfloat16_fallback_warns (op_name : string) (w : World) :
  TestCPUFeature_AVX512F (extern w) = false ->
  find_ne_npos (KernelsRegisteredForOp (extern w) op_name)
    "label='QuantizedMklOp'" = false ->
  find_ne_npos (KernelsRegisteredForOp (extern w) op_name)
    "label='MklLayoutDependentOp'" = true ->
  exists w',
    IsMklLayoutDependentOp op_name DT_BFLOAT16 w = Ret false w' /\
    cpu_bfloat16_warn_once_flag (statics w') = true /\
    (cpu_bfloat16_warn_once_flag (statics w) = true ->
     trace w' = CallTestCPUFeature :: trace w) /\
    (cpu_bfloat16_warn_once_flag (statics w) = false ->
     exists msg,
       trace w' = LogError msg :: CallTestCPUFeature :: trace w).
Proof.
  intros A Q L. unfold IsMklLayoutDependentOp,
    IsBF16SupportedByOneDNNOnThisCPU, BF16UnsupportedWarning. m_unfold.
  change kMklQuantizedOpLabelPattern with "label='QuantizedMklOp'".
  change kMklLayoutDependentOpLabelPattern
    with "label='MklLayoutDependentOp'".
  rewrite Q, L. cbn. rewrite A. cbn.
  destruct (cpu_bfloat16_warn_once_flag (statics w)) eqn:F; cbn.
  - eexists. split; [reflexivity|]. cbn. rewrite F.
    repeat split; [discriminate].
  - eexists. split; [reflexivity|]. cbn.
    repeat split; [discriminate|]. intros _. eexists. reflexivity.
Qed.

Lemma bfloat16_fallback_warns_witness :
  exists w',
    IsMklLayoutDependentOp "_MklAdd" DT_BFLOAT16 Sample.w0 = Ret false w' /\
    cpu_bfloat16_warn_once_flag (statics w') = true /\
    (cpu_bfloat16_warn_once_flag (statics Sample.w0) = true ->
     trace w' = CallTestCPUFeature :: trace Sample.w0) /\
    (cpu_bfloat16_warn_once_flag (statics Sample.w0) = false ->
     exists msg,
       trace w' = LogError msg :: CallTestCPUFeature :: trace Sample.w0).
Proof.
  apply (bfloat16_fallback_warns "_MklAdd" Sample.w0); reflexivity.
Defined.

(** ** The fatal path *)

(** X17.  [NativeFormatEnabled] aborts the process exactly when the build
    has [ENABLE_MKL], the environment has not been read yet, and reading
    [TF_ENABLE_MKL_NATIVE_FORMAT] fails; the read and the fatal log with
    the status message are then the last two events of the process. *)
Theorem NativeFormatEnabled_aborts_iff (w : World) :
  ((exists w', NativeFormatEnabled w = Abort w') <->
   ENABLE_MKL (build w) = true /\ once (statics w) = false /\
   exists msg,
     fst (ReadBoolFromEnvVar (extern w) "TF_ENABLE_MKL_NATIVE_FORMAT" true)
     = Error msg) /\
  (forall w' msg,
     NativeFormatEnabled w = Abort w' ->
     fst (ReadBoolFromEnvVar (extern w) "TF_ENABLE_MKL_NATIVE_FORMAT" true)
     = Error msg ->
     trace w'
     = LogFatal msg :: CallReadBoolFromEnvVar "TF_ENABLE_MKL_NATIVE_FORMAT"
         :: trace w).
Proof.
  rewrite NativeFormatEnabled_eq. fold env_var.
  destruct (ENABLE_MKL (build w)).
  - destruct (once (statics w)).
    + split.
      * split; [intros [w' H]; discriminate | intros (_ & H & _)];
          discriminate.
      * intros w' msg H. discriminate.
    + cbn. destruct (fst (ReadBoolFromEnvVar (extern w) env_var true))
        as [|m] eqn:R.
      * split.
        -- split; [intros [w' H]; discriminate|].
           intros (_ & _ & msg & H). discriminate.
        -- intros w' msg H. discriminate.
      * split.
        -- split; [intros _; repeat split; now exists m|].
           intros _. eexists. reflexivity.
        -- intros w' msg H M. injection H as <-. injection M as <-.
           reflexivity.
  - split.
    + split; [intros [w' H]; discriminate | intros (H & _); discriminate].
    + intros w' msg H. discriminate.
Qed.

Lemma NativeFormatEnabled_aborts_iff_witness :
  trace (world_of (NativeFormatEnabled
                     (fresh Sample.oss_mkl MoreSamples.ext_garbled)))
  = LogFatal "not a bool"
      :: CallReadBoolFromEnvVar "TF_ENABLE_MKL_NATIVE_FORMAT"
      :: trace (fresh Sample.oss_mkl MoreSamples.ext_garbled).
Proof.
  apply (proj2 (NativeFormatEnabled_aborts_iff
                  (fresh Sample.oss_mkl MoreSamples.ext_garbled))
           (world_of (NativeFormatEnabled
                        (fresh Sample.oss_mkl MoreSamples.ext_garbled)))
           "not a bool");
    reflexivity.
Defined.
